(** * Endpoint health aggregation: a shallow embedding

    The development follows three scripts of the repository:

    - the axios based hosting validation suite (the JavaScript half of
      [validate-service.sh]): [validateBackendService],
      [validateMultipleEndpoints], [comprehensiveHostValidation] and
      [hostingValidation];
    - the curl based [comprehensive-validation.sh]:
      [validate_single_endpoint] and [run_comprehensive_validation];
    - the [http] based [validate-service.js]: [validateService];
    - [advanced-validate.js]: [validateBackendService],
      [validateMultipleEndpoints] and [completeValidation];
    - the curl script at the head of [validate-service.sh], and the host and
      port that [run_diagnostics] of [comprehensive-validation.sh] reads off
      a URL.

    The network is an oracle that answers the n-th request of a run.  The
    JavaScript code runs in a monad that threads the clock and the list of
    requests issued so far and that can complete abruptly with a rejected
    promise, so that "no exception escapes" and "each endpoint is requested
    once" are statements about the model and are not built into it.  The
    shell code threads the same state explicitly.

    Left out: console output and the ISO rendering of timestamps (a
    timestamp is the clock value); headers and bodies are opaque strings. *)

From Stdlib Require Import ZArith QArith Qround List Ascii String Bool Lia DecimalString.
From Stdlib Require PrimFloat SpecFloat FloatOps Uint63.
Import ListNotations.

Local Open Scope string_scope.
Local Open Scope list_scope.
Local Open Scope Z_scope.

(** ** The network *)

Record Request := mkRequest { req_url : string; req_timeout : Z }.

(** What one HTTP attempt meets on the wire: a response with a status line,
    or no response at all (refused, reset, unknown host, timed out, ...), in
    which case the client library reports an optional error code and a
    message. *)
Inductive NetOutcome :=
| Responded (status : Z) (statusText headers data : string)
| NoResponse (code : option string) (message : string).

Record Exchange := mkExchange { outcome : NetOutcome; elapsed : Z }.

(** The answer to the [n]-th request of a run (counting from 0). *)
Definition Net := nat -> Request -> Exchange.

Definition received (o : NetOutcome) : option Z :=
  match o with
  | Responded s _ _ _ => Some s
  | NoResponse _ _ => None
  end.

Definition show (n : Z) : string := NilZero.string_of_int (Z.to_int n).

(** ** JavaScript values used by the scripts *)

(** A number that results from [Math.round] of a quotient of two lengths. *)
Inductive JsNumber :=
| Num (z : Z)
| NaN
| PosInfinity.

(** [x === k] for an integer literal [k]. *)
Definition js_strict_eq (x : JsNumber) (k : Z) : bool :=
  match x with
  | Num z => z =? k
  | _ => false
  end.

(** [x >= k] for an integer literal [k]. *)
Definition js_ge (x : JsNumber) (k : Z) : bool :=
  match x with
  | Num z => k <=? z
  | NaN => false
  | PosInfinity => true
  end.

(** [Math.round]: the nearest integer, ties towards plus infinity. *)
Definition Math_round (q : Q) : Z := Qfloor (q + (1 # 2)).

(** [Math.round((s / n) * 100)] for two array lengths [s] and [n].  The
    quotient is taken exactly; [round_percent_binary64] below evaluates the
    expression in binary64, and the two agree for fewer than 40 endpoints
    ([binary64_agrees_below_40]). *)
Definition round_percent (s n : nat) : JsNumber :=
  match n, s with
  | O, O => NaN
  | O, _ => PosInfinity
  | _, _ => Num (Math_round ((inject_Z (Z.of_nat s) / inject_Z (Z.of_nat n)) * 100))
  end.

(** A string is truthy unless it is empty; [undefined] is falsy. *)
Definition truthy (c : option string) : bool :=
  match c with
  | Some s => negb (s =? "")%string
  | None => false
  end.

Definition code_is (c : option string) (k : string) : bool :=
  match c with
  | Some s => (s =? k)%string
  | None => false
  end.

(** ** axios *)

Module Axios.

Record Response := mkResponse {
  status : Z;
  statusText : string;
  headers : string;
  data : string
}.

Record Error := mkError {
  code : option string;
  response : option Response;
  message : string
}.

Record Config := mkConfig {
  timeout : Z;
  validateStatus : Z -> bool
}.

(** The default of the library: [status >= 200 && status < 300]. *)
Definition defaultValidateStatus (s : Z) : bool := (200 <=? s) && (s <? 300).

(** The code of the error that settles a response whose status is not
    valid: the library indexes [ERR_BAD_REQUEST; ERR_BAD_RESPONSE] with
    [floor(status / 100) - 4]. *)
Definition badStatusCode (s : Z) : option string :=
  match s / 100 - 4 with
  | 0 => Some "ERR_BAD_REQUEST"
  | 1 => Some "ERR_BAD_RESPONSE"
  | _ => None
  end.

(** How the promise of [axios.get] settles on a given outcome. *)
Definition settle (validate : Z -> bool) (o : NetOutcome) : Response + Error :=
  match o with
  | Responded s txt h d =>
      let r := mkResponse s txt h d in
      if validate s then inl r
      else inr (mkError (badStatusCode s) (Some r)
                        ("Request failed with status code " ++ show s)%string)
  | NoResponse c m => inr (mkError c None m)
  end.

End Axios.

(** ** Asynchronous JavaScript code as a state and exception monad *)

Record State := mkState { now : Z; requests : list Request }.

Definition issue (rq : Request) (dt : Z) (st : State) : State :=
  mkState (now st + dt) (requests st ++ [rq]).

Module Js.

Inductive Completion (A : Type) :=
| Normal (a : A)
| Thrown (e : Axios.Error).
Arguments Normal {A} a.
Arguments Thrown {A} e.

Definition M (A : Type) := Net -> State -> Completion A * State.

Definition ret {A} (a : A) : M A := fun _ st => (Normal a, st).

Definition bind {A B} (m : M A) (k : A -> M B) : M B :=
  fun net st =>
    match m net st with
    | (Normal a, st') => k a net st'
    | (Thrown e, st') => (Thrown e, st')
    end.

(** [try { m } catch (error) { h error }] *)
Definition try_catch {A} (m : M A) (h : Axios.Error -> M A) : M A :=
  fun net st =>
    match m net st with
    | (Normal a, st') => (Normal a, st')
    | (Thrown e, st') => h e net st'
    end.

(** [Date.now()] *)
Definition Date_now : M Z := fun _ st => (Normal (now st), st).

(** [await axios.get(url, config)]: one request on the wire; the awaited
    promise either yields the response or throws the error. *)
Definition axios_get (url : string) (cfg : Axios.Config) : M Axios.Response :=
  fun net st =>
    let rq := mkRequest url (Axios.timeout cfg) in
    let x := net (List.length (requests st)) rq in
    match Axios.settle (Axios.validateStatus cfg) (outcome x) with
    | inl r => (Normal r, issue rq (elapsed x) st)
    | inr e => (Thrown e, issue rq (elapsed x) st)
    end.

(** [for (const x of xs) { acc = body x acc }] *)
Fixpoint for_of {A R} (xs : list A) (body : A -> R -> M R) (acc : R) : M R :=
  match xs with
  | [] => ret acc
  | x :: rest => bind (body x acc) (for_of rest body)
  end.

End Js.

Declare Scope js_scope.
Delimit Scope js_scope with js.
Notation "x <- m ;; k" := (Js.bind m (fun x => k))
  (at level 61, m at next level, right associativity) : js_scope.

(** ** The hosting validation suite *)

Inductive OverallStatus := HEALTHY | DEGRADED | UNHEALTHY | FAILED.

Record EndpointSpec := mkEndpoint { path : string; name : string }.

(** The [status] property of an endpoint entry holds a number when a response
    came back and a string (the error code, or ['ERROR']) otherwise. *)
Inductive StatusField :=
| StatusNum (n : Z)
| StatusStr (s : string).

Record EndpointResult := mkEndpointResult {
  ep_path : string;
  ep_name : string;
  ep_status : StatusField;
  ep_responseTime : Z;
  ep_success : bool;
  ep_data : option string;
  ep_error : option string
}.

Record Summary := mkSummary {
  total : Z;
  successful : Z;
  failed : Z;
  successRate : JsNumber
}.

Record DetailedResult := mkDetailed {
  d_baseUrl : string;
  d_timestamp : Z;
  d_endpoints : list EndpointResult;
  d_summary : Summary
}.

Record BasicResult := mkBasic {
  b_success : bool;
  b_status : option Z;
  b_responseTime : Z;
  b_headers : option string;
  b_data : option string;
  b_url : string;
  b_error : option string
}.

Record Report := mkReport {
  r_url : string;
  r_timestamp : Z;
  basicConnectivity : BasicResult;
  detailedValidation : option DetailedResult;
  overallStatus : OverallStatus
}.

Record Verdict := mkVerdict { result : Report; exitCode : Z }.

(** The kinds of transport failure that the scripts tell apart. *)
Inductive ErrorKind :=
| ConnectionRefused
| ConnectionReset
| HostNotFound
| TimedOut
| OtherTransportError.

Definition kindOfCode (c : option string) : ErrorKind :=
  if code_is c "ECONNREFUSED" then ConnectionRefused
  else if code_is c "ECONNRESET" then ConnectionReset
  else if code_is c "ENOTFOUND" then HostNotFound
  else if code_is c "ETIMEDOUT" then TimedOut
  else OtherTransportError.

(** The branch that the [if / else if] chain of the [catch] block of
    [validateBackendService] takes: the four error codes are tested first,
    then [error.response], and the last [else] takes the rest. *)
Inductive CatchBranch :=
| Transport (k : ErrorKind)
| ServerError (r : Axios.Response).

Definition catchBranch (error : Axios.Error) : CatchBranch :=
  if code_is (Axios.code error) "ECONNREFUSED" then Transport ConnectionRefused
  else if code_is (Axios.code error) "ECONNRESET" then Transport ConnectionReset
  else if code_is (Axios.code error) "ENOTFOUND" then Transport HostNotFound
  else if code_is (Axios.code error) "ETIMEDOUT" then Transport TimedOut
  else match Axios.response error with
       | Some r => ServerError r
       | None => Transport OtherTransportError
       end.

Definition transportMessage (url : string) (timeout : Z) (message : string)
    (k : ErrorKind) : string :=
  (match k with
   | ConnectionRefused => "Connection refused. No service running on " ++ url
   | ConnectionReset => "Connection reset by server on " ++ url
   | HostNotFound => "Host not found: " ++ url
   | TimedOut => "Request timed out after " ++ show timeout ++ "ms for " ++ url
   | OtherTransportError => "Error connecting to " ++ url ++ ": " ++ message
   end)%string.

Definition serverErrorMessage (r : Axios.Response) : string :=
  ("Server error: " ++ show (Axios.status r) ++ " - " ++ Axios.statusText r)%string.

Definition errorMessage (url : string) (timeout : Z) (error : Axios.Error) : string :=
  match catchBranch error with
  | Transport k => transportMessage url timeout (Axios.message error) k
  | ServerError r => serverErrorMessage r
  end.

Local Open Scope js_scope.

(** [validateBackendService(url, timeout)]: the basic connectivity test.  Any
    status below 500 is accepted. *)
Definition validateBackendService (url : string) (timeout : Z) : Js.M BasicResult :=
  startTime <- Js.Date_now ;;
  Js.try_catch
    (response <- Js.axios_get url (Axios.mkConfig timeout (fun status => status <? 500)) ;;
     endTime <- Js.Date_now ;;
     let responseTime := endTime - startTime in
     Js.ret (mkBasic true (Some (Axios.status response)) responseTime
                     (Some (Axios.headers response)) (Some (Axios.data response))
                     url None))
    (fun error =>
     endTime <- Js.Date_now ;;
     let responseTime := endTime - startTime in
     Js.ret (mkBasic false
                     (match Axios.response error with
                      | Some r => Some (Axios.status r)
                      | None => None
                      end)
                     responseTime None None url
                     (Some (errorMessage url timeout error)))).

(** The five endpoints listed in [validateMultipleEndpoints]. *)
Definition hosting_endpoints : list EndpointSpec :=
  [ mkEndpoint "/" "Home";
    mkEndpoint "/health" "Health Check";
    mkEndpoint "/api/status" "API Status";
    mkEndpoint "/api/health" "API Health";
    mkEndpoint "/status" "Status" ].

Section Aggregator.

(** The endpoint list is a constant of the source; the functions that read
    it are stated over any list and instantiated with [hosting_endpoints]
    below. *)
Variable endpoints : list EndpointSpec.

(** The body of the [for ... of] loop: one request, one pushed entry. *)
Definition probeEndpoint (baseUrl : string) (endpoint : EndpointSpec)
    (results : list EndpointResult) : Js.M (list EndpointResult) :=
  let url := (baseUrl ++ path endpoint)%string in
  startTime <- Js.Date_now ;;
  Js.try_catch
    (response <- Js.axios_get url (Axios.mkConfig 5000 Axios.defaultValidateStatus) ;;
     t <- Js.Date_now ;;
     let responseTime := t - startTime in
     Js.ret (results ++
             [mkEndpointResult (path endpoint) (name endpoint)
                (StatusNum (Axios.status response)) responseTime
                ((200 <=? Axios.status response) && (Axios.status response <? 300))
                (Some (Axios.data response)) None]))
    (fun error =>
     t <- Js.Date_now ;;
     let responseTime := t - startTime in
     let status :=
       match Axios.response error with
       | Some r => StatusNum (Axios.status r)
       | None =>
           if truthy (Axios.code error)
           then match Axios.code error with
                | Some c => StatusStr c
                | None => StatusStr "ERROR"
                end
           else StatusStr "ERROR"
       end in
     Js.ret (results ++
             [mkEndpointResult (path endpoint) (name endpoint)
                status responseTime false None (Some (Axios.message error))])).

Definition summarize (entries : list EndpointResult) : Summary :=
  let successfulEndpoints := List.length (filter ep_success entries) in
  mkSummary (Z.of_nat (List.length endpoints))
            (Z.of_nat successfulEndpoints)
            (Z.of_nat (List.length endpoints) - Z.of_nat successfulEndpoints)
            (round_percent successfulEndpoints (List.length endpoints)).

Definition validateMultipleEndpoints (baseUrl : string) : Js.M DetailedResult :=
  timestamp <- Js.Date_now ;;
  entries <- Js.for_of endpoints (probeEndpoint baseUrl) [] ;;
  Js.ret (mkDetailed baseUrl timestamp entries (summarize entries)).

Definition classify (successRate : JsNumber) : OverallStatus :=
  if js_strict_eq successRate 100 then HEALTHY
  else if js_ge successRate 50 then DEGRADED
  else UNHEALTHY.

Definition comprehensiveHostValidation (url : string) : Js.M Report :=
  basicResult <- validateBackendService url 5000 ;;
  if negb (b_success basicResult) then
    timestamp <- Js.Date_now ;;
    Js.ret (mkReport url timestamp basicResult None FAILED)
  else
    detailedResult <- validateMultipleEndpoints url ;;
    let overallStatus := classify (successRate (d_summary detailedResult)) in
    timestamp <- Js.Date_now ;;
    Js.ret (mkReport url timestamp basicResult (Some detailedResult) overallStatus).

Definition hostingValidation (baseUrl : string) : Js.M Verdict :=
  result <- comprehensiveHostValidation baseUrl ;;
  let exitCode :=
    match overallStatus result with
    | HEALTHY => 0
    | _ => 1
    end in
  Js.ret (mkVerdict result exitCode).

(** The entry point: [process.exit(exitCode)] when the promise is
    fulfilled, [process.exit(1)] when it is rejected. *)
Definition main (targetUrl : string) (net : Net) (st : State) : Z :=
  match hostingValidation targetUrl net st with
  | (Js.Normal v, _) => exitCode v
  | (Js.Thrown _, _) => 1
  end.

End Aggregator.

(** [validateMultipleEndpoints] and its callers as the source has them. *)
Definition hostingSuite (baseUrl : string) : Js.M Verdict :=
  hostingValidation hosting_endpoints baseUrl.

Local Close Scope js_scope.

(** ** validate-service.js: the [http] based check of localhost:5000 *)

Module Simple.

Definition options : Request := mkRequest "http://localhost:5000/" 5000.

(** The promise is resolved by exactly one of the three handlers: the
    response callback, ['error'] or ['timeout']; it is never rejected. *)
Definition validateService (net : Net) (st : State) : bool * State :=
  let x := net (List.length (requests st)) options in
  (match outcome x with
   | Responded statusCode _ _ _ => (200 <=? statusCode) && (statusCode <? 300)
   | NoResponse _ _ => false
   end,
   issue options (elapsed x) st).

(** [runValidation]: the argument of [process.exit]. *)
Definition runValidation (net : Net) (st : State) : Z :=
  let (isRunning, _) := validateService net st in
  if isRunning then 0 else 1.

End Simple.

(** ** comprehensive-validation.sh *)

Module Shell.

(** [curl -o /dev/null -s -w "%{http_code}"]: the status of the response,
    000 when there was none. *)
Definition write_out_http_code (o : NetOutcome) : Z :=
  match o with
  | Responded s _ _ _ => s
  | NoResponse _ _ => 0
  end.

(** [curl -f -s]: exit status 0 exactly on a response below 400. *)
Definition curl_fail_ok (o : NetOutcome) : bool :=
  match o with
  | Responded s _ _ _ => s <? 400
  | NoResponse _ _ => false
  end.

(** [$(( a / b ))]: integer division truncating towards zero; a zero
    divisor is an arithmetic error. *)
Definition arith_div (a b : Z) : option Z :=
  if b =? 0 then None else Some (Z.quot a b).

(** The six entries of the [endpoints] array, already split at the bar. *)
Definition endpoints : list EndpointSpec :=
  [ mkEndpoint "/" "Home";
    mkEndpoint "/health" "Health Check";
    mkEndpoint "/api/status" "API Status";
    mkEndpoint "/api/health" "API Health";
    mkEndpoint "/status" "Status";
    mkEndpoint "/api" "API Root" ].

Record SummaryLines := mkSummaryLines {
  total_count : Z;
  success_count : Z;
  failed_count : Z;
  success_rate : Z;
  overall_status : OverallStatus
}.

Record Run := mkRun {
  summary : option SummaryLines;
  return_code : Z
}.

Section Script.

Variables (URL : string) (TIMEOUT : Z).

(** The return status of [validate_single_endpoint]. *)
Definition validate_single_endpoint (endpoint : string) (net : Net) (st : State)
    : Z * State :=
  let full_url := (URL ++ endpoint)%string in
  let rq := mkRequest full_url TIMEOUT in
  let x := net (List.length (requests st)) rq in
  let http_code := write_out_http_code (outcome x) in
  (if (200 <=? http_code) && (http_code <? 300) then 0
   else if (300 <=? http_code) && (http_code <? 500) then 1
   else 1,
   issue rq (elapsed x) st).

(** The [for endpoint_pair in ...] loop; [success_count] is the
    accumulator. *)
Fixpoint test_endpoints (eps : list EndpointSpec) (success_count : Z)
    (net : Net) (st : State) : Z * State :=
  match eps with
  | [] => (success_count, st)
  | ep :: rest =>
      let (rc, st') := validate_single_endpoint (path ep) net st in
      test_endpoints rest (if rc =? 0 then success_count + 1 else success_count)
                     net st'
  end.

(** [run_comprehensive_validation] over an endpoint array [eps].  [None]
    stands for the arithmetic error of an empty array, which the model
    does not follow further. *)
Definition run_comprehensive_validation (eps : list EndpointSpec)
    (net : Net) (st : State) : option Run * State :=
  let rq := mkRequest URL TIMEOUT in
  let x := net (List.length (requests st)) rq in
  let st1 := issue rq (elapsed x) st in
  if negb (curl_fail_ok (outcome x)) then (Some (mkRun None 1), st1)
  else
    let total_count := Z.of_nat (List.length eps) in
    let (success_count, st2) := test_endpoints eps 0 net st1 in
    match arith_div (success_count * 100) total_count with
    | None => (None, st2)
    | Some success_rate =>
        let overall_status :=
          if success_rate =? 100 then HEALTHY
          else if 50 <=? success_rate then DEGRADED
          else UNHEALTHY in
        (Some (mkRun (Some (mkSummaryLines total_count success_count
                               (total_count - success_count)
                               success_rate overall_status))
                     (if success_rate =? 100 then 0 else 1)),
         st2)
    end.

End Script.

End Shell.

(** ** The probe outcome of an entry *)

(** The [statusCode] and the [errorKind] of the outcome that an endpoint
    entry records, read off its [status] property. *)
Definition statusCode (e : EndpointResult) : option Z :=
  match ep_status e with
  | StatusNum n => Some n
  | StatusStr _ => None
  end.

Definition errorKind (e : EndpointResult) : option ErrorKind :=
  match ep_status e with
  | StatusNum _ => None
  | StatusStr c => Some (kindOfCode (Some c))
  end.

Definition in_2xx (o : NetOutcome) : Prop :=
  exists s, received o = Some s /\ 200 <= s < 300.

(** The request that the loop issues for an endpoint. *)
Definition probeRequest (baseUrl : string) (ep : EndpointSpec) : Request :=
  mkRequest (baseUrl ++ path ep)%string 5000.

(** Entry [e] is a faithful record of outcome [o] for endpoint [ep]. *)
Definition records (ep : EndpointSpec) (o : NetOutcome) (e : EndpointResult) : Prop :=
  ep_path e = path ep /\ ep_name e = name ep /\
  statusCode e = received o /\
  (errorKind e <> None <-> received o = None) /\
  (ep_success e = true <-> in_2xx o).

(** The entries [es] record, in order, the outcomes of the requests number
    [k], [k + 1], ... for the endpoints [eps]. *)
Fixpoint entries_match (baseUrl : string) (net : Net) (k : nat)
    (eps : list EndpointSpec) (es : list EndpointResult) : Prop :=
  match eps, es with
  | [], [] => True
  | ep :: eps', e :: es' =>
      records ep (outcome (net k (probeRequest baseUrl ep))) e /\
      entries_match baseUrl net (S k) eps' es'
  | _, _ => False
  end.

(** A network that answers the n-th request with the n-th exchange of a
    script and refuses the connection afterwards. *)
Definition refused : Exchange :=
  mkExchange (NoResponse (Some "ECONNREFUSED") "connect ECONNREFUSED") 1.

Definition timed_out : Exchange :=
  mkExchange (NoResponse (Some "ECONNABORTED") "timeout of 5000ms exceeded") 5000.

Definition replies (s : Z) : Exchange := mkExchange (Responded s "" "" "{}") 3.

Definition scripted (xs : list Exchange) : Net := fun n _ => nth n xs refused.

Definition start : State := mkState 0 [].

(** The base URL and the first endpoint answer, the other five do not. *)
Definition one_of_six : Net :=
  scripted [replies 200; replies 200; refused; refused; refused; refused; refused].

(** A mixed script: three answers in the 2xx range, then a 404, a timeout and
    a refused connection. *)
Definition three_of_five : Net :=
  scripted [replies 200; replies 200; replies 204; replies 404; timed_out; refused].

(** ** advanced-validate.js *)

Module Advanced.

Local Open Scope js_scope.

(** [validateBackendService(url)]: the [catch] block only chooses what to
    log. *)
Definition validateBackendService (url : string) : Js.M bool :=
  Js.try_catch
    (response <- Js.axios_get url (Axios.mkConfig 5000 Axios.defaultValidateStatus) ;;
     Js.ret true)
    (fun error => Js.ret false).

(** The three paths listed in [validateMultipleEndpoints]. *)
Definition listed_endpoints : list string := ["/"; "/health"; "/api/status"].

Definition localhost : string := "http://localhost:5000".

Section Endpoints.

Variable endpoints : list string.

(** The body of the loop; [allValid] is the flag it may clear. *)
Definition probe (baseUrl endpoint : string) (allValid : bool) : Js.M bool :=
  Js.try_catch
    (let url := (baseUrl ++ endpoint)%string in
     response <- Js.axios_get url (Axios.mkConfig 5000 Axios.defaultValidateStatus) ;;
     Js.ret allValid)
    (fun error => Js.ret false).

Definition validateMultipleEndpoints (baseUrl : string) : Js.M bool :=
  Js.for_of endpoints (probe baseUrl) true.

(** [completeValidation()]: both calls take their default URL. *)
Definition completeValidation : Js.M bool :=
  isServiceRunning <- validateBackendService localhost ;;
  if isServiceRunning : bool then
    endpointsValid <- validateMultipleEndpoints localhost ;;
    if endpointsValid : bool then Js.ret true else Js.ret false
  else Js.ret false.

(** The entry point: [process.exit(success ? 0 : 1)], and [process.exit(1)]
    when the promise is rejected. *)
Definition main (net : Net) (st : State) : Z :=
  match completeValidation net st with
  | (Js.Normal success, _) => if success then 0 else 1
  | (Js.Thrown _, _) => 1
  end.

End Endpoints.

End Advanced.

(** ** validate-service.sh: the curl based check of localhost:5000 *)

Module Basic.

Definition target : string := "http://localhost:5000".

(** One run of [curl] without [--max-time]: no time limit, written 0. *)
Definition curl (url : string) (net : Net) (st : State) : NetOutcome * State :=
  let rq := mkRequest url 0 in
  let x := net (List.length (requests st)) rq in
  (outcome x, issue rq (elapsed x) st).

(** The script: the exit status and the requests made.  The three later
    runs of [curl] feed [jq] and the response time line; their status is not
    looked at. *)
Definition validate_service (net : Net) (st : State) : Z * State :=
  let (o, st1) := curl target net st in
  if Shell.curl_fail_ok o then
    let (_, st2) := curl target net st1 in
    let (_, st3) := curl (target ++ "/health")%string net st2 in
    let (_, st4) := curl target net st3 in
    (0, st4)
  else (1, st1).

End Basic.

(** ** comprehensive-validation.sh: the targets of [run_diagnostics] *)

(** The [echo], [sed] and [cut] pipelines of [run_diagnostics]. *)
Module Diagnostics.

Local Open Scope char_scope.

(** What follows the match of [^[^/]*//], if there is one. *)
Fixpoint after_double_slash (s : string) : option string :=
  match s with
  | EmptyString => None
  | String a rest =>
      if (a =? "/")%char then
        match rest with
        | String b r => if (b =? "/")%char then Some r else None
        | EmptyString => None
        end
      else after_double_slash rest
  end.

(** What follows the match of [^[^:]*://], if there is one. *)
Fixpoint after_scheme (s : string) : option string :=
  match s with
  | EmptyString => None
  | String a rest =>
      if (a =? ":")%char then
        match rest with
        | String b (String c r) =>
            if ((b =? "/") && (c =? "/"))%char then Some r else None
        | _ => None
        end
      else after_scheme rest
  end.

(** What follows the match of [.*:], the longest one, if there is one. *)
Fixpoint after_last_colon (s : string) : option string :=
  match s with
  | EmptyString => None
  | String a rest =>
      match after_last_colon rest with
      | Some r => Some r
      | None => if (a =? ":")%char then Some rest else None
      end
  end.

(** The text before the first [c]; all of it when there is none.  This is
    [s|/.*$||] for a slash and [cut -d: -f1] for a colon. *)
Fixpoint before (c : ascii) (s : string) : string :=
  match s with
  | EmptyString => EmptyString
  | String a rest => if (a =? c)%char then EmptyString else String a (before c rest)
  end.

(** [s|re||] deletes the match and leaves the line alone without one. *)
Definition delete_match (rest_after : string -> option string) (s : string) : string :=
  match rest_after s with
  | Some r => r
  | None => s
  end.

(** A character that the shell and [echo] leave alone in an unquoted word: a
    visible ASCII character that is no pattern character and no backslash.
    Blanks would split the word and patterns could expand to file names. *)
Definition word_char (a : ascii) : bool :=
  let n := nat_of_ascii a in
  (33 <=? n)%nat && (n <=? 126)%nat
  && negb ((a =? "*") || (a =? "?") || (a =? "[") || (a =? "\"))%char.

Fixpoint word_chars (w : string) : bool :=
  match w with
  | EmptyString => true
  | String a rest => word_char a && word_chars rest
  end.

(** A word of such characters that does not start with a dash, so that
    [echo] does not take it for an option. *)
Definition plain (w : string) : bool :=
  word_chars w && negb (String.prefix "-" w).

(** [echo $w], with [$w] unquoted: a plain word is printed as it is.  What
    the shell and [echo] do with other words is not modelled ([None]). *)
Definition echo (w : string) : option string :=
  if plain w then Some w else None.

(** [host_part] after the two pipelines. *)
Definition host_part (URL : string) : option string :=
  match echo URL with
  | Some line =>
      let host_part := before "/" (delete_match after_double_slash line) in
      match echo host_part with
      | Some line' => Some (before ":" line')
      | None => None
      end
  | None => None
  end.

(** [port_part] as the three [sed] expressions leave it. *)
Definition port_text (URL : string) : option string :=
  match echo URL with
  | Some line =>
      Some (delete_match after_last_colon (before "/" (delete_match after_scheme line)))
  | None => None
  end.

(** [port_part] after the [if] that fills in the default port. *)
Definition port_part (URL : string) : option string :=
  match host_part URL, port_text URL with
  | Some h, Some p =>
      Some (if ((p =? "") || (p =? h))%string
            then (if String.prefix "https" URL then "443" else "80")%string
            else p)
  | _, _ => None
  end.

End Diagnostics.

(** ** What the network answered *)

Definition is_2xx (o : NetOutcome) : bool :=
  match o with
  | Responded s _ _ _ => (200 <=? s) && (s <? 300)
  | NoResponse _ _ => false
  end.

(** A response came back and its status is below [limit]. *)
Definition answered_below (limit : Z) (o : NetOutcome) : bool :=
  match o with
  | Responded s _ _ _ => s <? limit
  | NoResponse _ _ => false
  end.

(** The outcomes of the requests [rqs] when they are the requests number
    [k], [k + 1], ... of a run. *)
Fixpoint outcomes_from (net : Net) (k : nat) (rqs : list Request) : list NetOutcome :=
  match rqs with
  | [] => []
  | rq :: rest => outcome (net k rq) :: outcomes_from net (S k) rest
  end.

(** How good a status is. *)
Definition rank (status : OverallStatus) : Z :=
  match status with
  | HEALTHY => 3
  | DEGRADED => 2
  | UNHEALTHY => 1
  | FAILED => 0
  end.

(** [s] has no character [c]. *)
Fixpoint lacks (c : ascii) (s : string) : bool :=
  match s with
  | EmptyString => true
  | String a rest => negb (a =? c)%char && lacks c rest
  end.

(** The entries [es] stand, in order, in relation [R] to the endpoints [eps]
    and to the exchanges number [k], [k + 1], ... of their requests. *)
Fixpoint entries_rel (R : EndpointSpec -> Exchange -> EndpointResult -> Prop)
    (baseUrl : string) (net : Net) (k : nat)
    (eps : list EndpointSpec) (es : list EndpointResult) : Prop :=
  match eps, es with
  | [], [] => True
  | ep :: eps', e :: es' =>
      R ep (net k (probeRequest baseUrl ep)) e /\
      entries_rel R baseUrl net (S k) eps' es'
  | _, _ => False
  end.

(** What the loop of [validateMultipleEndpoints] writes into the entry of an
    exchange besides path, name and success. *)
Definition details (ep : EndpointSpec) (x : Exchange) (e : EndpointResult) : Prop :=
  ep_responseTime e = elapsed x
  /\ ep_status e = match outcome x with
                   | Responded s _ _ _ => StatusNum s
                   | NoResponse c _ =>
                       StatusStr (match c with
                                  | Some code => if (code =? "")%string then "ERROR" else code
                                  | None => "ERROR"
                                  end)
                   end
  /\ ep_success e = is_2xx (outcome x)
  /\ ep_data e = match outcome x with
                 | Responded s _ _ d => if is_2xx (outcome x) then Some d else None
                 | NoResponse _ _ => None
                 end
  /\ ep_error e = match outcome x with
                  | Responded s _ _ _ =>
                      if is_2xx (outcome x) then None
                      else Some ("Request failed with status code " ++ show s)%string
                  | NoResponse _ m => Some m
                  end.

(** ** The rate in binary64 *)

(** A length as a JavaScript number. *)
Definition number_of_nat (n : nat) : PrimFloat.float :=
  PrimFloat.of_uint63 (Uint63.of_Z (Z.of_nat n)).

(** [Math.round] of a binary64 number: the nearest integer, ties towards
    plus infinity, taken exactly from mantissa and exponent.  The argument
    is never negative here, so an infinity is the positive one. *)
Definition Math_round_binary64 (x : PrimFloat.float) : JsNumber :=
  match FloatOps.Prim2SF x with
  | SpecFloat.S754_zero _ => Num 0
  | SpecFloat.S754_infinity _ => PosInfinity
  | SpecFloat.S754_nan => NaN
  | SpecFloat.S754_finite sign m e =>
      let v := if sign then Z.neg m else Z.pos m in
      Num (if 0 <=? e then v * 2 ^ e
           else (2 * v + 2 ^ (- e)) / 2 ^ (- e + 1))
  end.

(** [Math.round((s / n) * 100)] with the division and the multiplication
    of binary64, as the aggregator evaluates it. *)
Definition round_percent_binary64 (s n : nat) : JsNumber :=
  Math_round_binary64
    (PrimFloat.mul (PrimFloat.div (number_of_nat s) (number_of_nat n))
                   (number_of_nat 100)).

Definition JsNumber_eqb (x y : JsNumber) : bool :=
  match x, y with
  | Num a, Num b => a =? b
  | NaN, NaN => true
  | PosInfinity, PosInfinity => true
  | _, _ => false
  end.

(** Eight endpoints, for a rate that ends in one half. *)
Definition eight_endpoints : list EndpointSpec :=
  hosting_endpoints
  ++ [mkEndpoint "/api" "API Root"; mkEndpoint "/users" "Users"; mkEndpoint "/ready" "Ready"].

(** ** The words of the specification *)

(** [r] is [s / n * 100] rounded to the nearest integer, halves upwards:
    [r - 1/2 <= 100 s / n < r + 1/2], cleared of denominators. *)
Definition round_half_up_percent (s n r : Z) : Prop :=
  2 * r * n - n <= 200 * s < 2 * r * n + n.

(** [r] is [s * 100 / n] rounded downwards: [r <= 100 s / n < r + 1]. *)
Definition floor_percent (s n r : Z) : Prop :=
  r * n <= 100 * s < r * n + n.

(** The two-threshold step function from a success rate to a status. *)
Definition status_band (rate : Z) (status : OverallStatus) : Prop :=
  (status = HEALTHY <-> rate = 100) /\
  (status = DEGRADED <-> 50 <= rate < 100) /\
  (status = UNHEALTHY <-> rate < 50).

(** The exit code mapping. *)
Definition exit_code_of (status : OverallStatus) : Z :=
  match status with
  | HEALTHY => 0
  | DEGRADED | UNHEALTHY | FAILED => 1
  end.

(** * Properties *)

(** ** Scenarios *)

Definition verdict_of (c : Js.Completion Verdict * State)
    : option (OverallStatus * option JsNumber * Z * nat) :=
  match c with
  | (Js.Normal v, st) =>
      Some (overallStatus (result v),
            option_map (fun d => successRate (d_summary d)) (detailedValidation (result v)),
            exitCode v, List.length (requests st))
  | (Js.Thrown _, _) => None
  end.

Example scenario_all_ok :
  verdict_of (hostingSuite "http://h" (scripted (map replies [200; 200; 200; 200; 200; 200])) start)
  = Some (HEALTHY, Some (Num 100), 0, 6%nat).
Proof. reflexivity. Qed.

Example scenario_three_of_five :
  verdict_of (hostingSuite "http://h"
                (scripted [replies 200; replies 200; replies 200; replies 200; refused; refused])
                start)
  = Some (DEGRADED, Some (Num 60), 1, 6%nat).
Proof. reflexivity. Qed.

Example scenario_one_of_five :
  verdict_of (hostingSuite "http://h"
                (scripted [replies 200; replies 200; timed_out; timed_out; timed_out; timed_out])
                start)
  = Some (UNHEALTHY, Some (Num 20), 1, 6%nat).
Proof. reflexivity. Qed.

Example scenario_precheck_refused :
  verdict_of (hostingSuite "http://h" (scripted []) start)
  = Some (FAILED, None, 1, 1%nat).
Proof. reflexivity. Qed.

Example scenario_404_is_failure :
  option_map (fun e => (ep_status e, ep_success e))
    (match probeEndpoint "http://h" (mkEndpoint "/x" "X") [] (scripted [replies 404]) start with
     | (Js.Normal es, _) => hd_error es
     | _ => None
     end)
  = Some (StatusNum 404, false).
Proof. reflexivity. Qed.

(** ** The monad *)

Lemma bind_normal {A B} (m : Js.M A) (k : A -> Js.M B) net st a st' :
  m net st = (Js.Normal a, st') -> Js.bind m k net st = k a net st'.
Proof. intros H. unfold Js.bind. now rewrite H. Qed.

Lemma normal_inj {A} (a b : A) (s t : State) :
  (Js.Normal a, s) = (Js.Normal b, t) -> a = b /\ s = t.
Proof. intros H. now injection H. Qed.

Lemma requests_issue rq dt st : requests (issue rq dt st) = requests st ++ [rq].
Proof. reflexivity. Qed.

Lemma length_issue rq dt st :
  List.length (requests (issue rq dt st)) = S (List.length (requests st)).
Proof. rewrite requests_issue, length_app. simpl. lia. Qed.

(** ** Status ranges *)

Lemma in_range_bool lo hi s : (lo <=? s) && (s <? hi) = true <-> lo <= s < hi.
Proof. rewrite andb_true_iff, Z.leb_le, Z.ltb_lt. tauto. Qed.

Lemma in_2xx_responded s txt h d : in_2xx (Responded s txt h d) <-> 200 <= s < 300.
Proof.
  unfold in_2xx; simpl. split.
  - intros (s' & E & R). now injection E as ->.
  - intros R. now exists s.
Qed.

Lemma in_2xx_no_response c m : ~ in_2xx (NoResponse c m).
Proof. intros (s & E & _). discriminate E. Qed.

(** ** One probe of the loop *)

Lemma probeEndpoint_records baseUrl ep results net st :
  let rq := probeRequest baseUrl ep in
  let x := net (List.length (requests st)) rq in
  exists e,
    probeEndpoint baseUrl ep results net st
      = (Js.Normal (results ++ [e]), issue rq (elapsed x) st)
    /\ records ep (outcome x) e.
Proof.
  intros rq x. subst x rq.
  unfold probeEndpoint, probeRequest, Js.bind, Js.try_catch, Js.axios_get,
    Js.Date_now, Js.ret.
  cbn [Axios.timeout Axios.validateStatus].
  destruct (net _ _) as [[s txt h d | c m] dt]; cbn [Axios.settle outcome elapsed].
  - destruct (Axios.defaultValidateStatus s) eqn:Hv; eexists; (split; [reflexivity|]);
      unfold records, statusCode, errorKind; cbn;
      (repeat split; try congruence; try discriminate).
    + rewrite in_range_bool. apply in_2xx_responded.
    + rewrite in_range_bool. apply in_2xx_responded.
    + intros (s' & E & R). injection E as <-.
      apply in_range_bool in R. unfold Axios.defaultValidateStatus in Hv. congruence.
  - eexists; (split; [reflexivity|]).
    unfold records, statusCode, errorKind; cbn.
    repeat split; try congruence; try discriminate.
    + destruct (truthy c); [destruct c|]; reflexivity.
    + intros _. destruct (truthy c); [destruct c|]; discriminate.
    + intros H. now apply in_2xx_no_response in H.
Qed.

(** ** The loop *)

Lemma for_of_probe baseUrl net eps : forall acc st,
  exists es st',
    Js.for_of eps (probeEndpoint baseUrl) acc net st = (Js.Normal (acc ++ es), st')
    /\ entries_match baseUrl net (List.length (requests st)) eps es
    /\ requests st' = requests st ++ map (probeRequest baseUrl) eps.
Proof.
  induction eps as [|ep eps IH]; intros acc st.
  - exists [], st. cbn. now rewrite !app_nil_r.
  - destruct (probeEndpoint_records baseUrl ep acc net st) as (e & Hp & He).
    destruct (IH (acc ++ [e]) (issue (probeRequest baseUrl ep)
                 (elapsed (net (List.length (requests st)) (probeRequest baseUrl ep))) st))
      as (es & st' & Hl & Hm & Hr).
    exists (e :: es), st'. cbn [Js.for_of].
    rewrite (bind_normal _ _ _ _ _ _ Hp), Hl.
    rewrite <- app_assoc. cbn [app]. split; [reflexivity|]. split.
    + cbn. split; [exact He|]. now rewrite length_issue in Hm.
    + rewrite Hr, requests_issue, <- app_assoc. reflexivity.
Qed.

Lemma entries_match_length baseUrl net eps : forall k es,
  entries_match baseUrl net k eps es -> List.length es = List.length eps.
Proof.
  induction eps as [|ep eps IH]; intros k [|e es] H; cbn in *; try tauto.
  destruct H as [_ H]. f_equal. eauto.
Qed.

Lemma entries_match_nth baseUrl net eps : forall k es i ep,
  entries_match baseUrl net k eps es ->
  nth_error eps i = Some ep ->
  exists e, nth_error es i = Some e
    /\ records ep (outcome (net (k + i)%nat (probeRequest baseUrl ep))) e.
Proof.
  induction eps as [|ep0 eps IH]; intros k [|e es] i ep H Hi; cbn in H; try tauto.
  - destruct i; discriminate Hi.
  - destruct H as [He H]. destruct i as [|i]; cbn in Hi.
    + injection Hi as <-. exists e. rewrite Nat.add_0_r. now split.
    + destruct (IH _ _ _ _ H Hi) as (e' & Hn & Hr).
      exists e'. split; [exact Hn|]. now rewrite Nat.add_succ_r.
Qed.

Lemma entries_match_paths baseUrl net eps : forall k es,
  entries_match baseUrl net k eps es ->
  map (fun e => (ep_path e, ep_name e)) es = map (fun ep => (path ep, name ep)) eps.
Proof.
  induction eps as [|ep eps IH]; intros k [|e es] H; cbn in *; try tauto.
  destruct H as [(Hp & Hn & _) H]. rewrite Hp, Hn. f_equal. eauto.
Qed.

(** [validateMultipleEndpoints] always returns, with one entry per endpoint
    and one request per endpoint. *)
Lemma validateMultipleEndpoints_returns eps baseUrl net st :
  exists es st',
    validateMultipleEndpoints eps baseUrl net st
      = (Js.Normal (mkDetailed baseUrl (now st) es (summarize eps es)), st')
    /\ entries_match baseUrl net (List.length (requests st)) eps es
    /\ requests st' = requests st ++ map (probeRequest baseUrl) eps.
Proof.
  destruct (for_of_probe baseUrl net eps [] st) as (es & st' & Hl & Hm & Hr).
  exists es, st'. split; [|now split].
  unfold validateMultipleEndpoints, Js.bind, Js.Date_now.
  rewrite Hl. reflexivity.
Qed.

(** ** The basic connectivity test *)

Lemma catchBranch_bad_status s r m :
  catchBranch (Axios.mkError (Axios.badStatusCode s) (Some r) m) = ServerError r.
Proof.
  unfold Axios.badStatusCode.
  destruct (s / 100 - 4) as [|[p|p|]|p]; reflexivity.
Qed.

Lemma catchBranch_no_response c m :
  catchBranch (Axios.mkError c None m) = Transport (kindOfCode c).
Proof.
  unfold catchBranch, kindOfCode. cbn [Axios.code Axios.response].
  repeat match goal with |- context [if ?b then _ else _] => destruct b end; reflexivity.
Qed.

Lemma transport_not_server url timeout m k r :
  transportMessage url timeout m k <> serverErrorMessage r.
Proof. destruct k; cbn; discriminate. Qed.

(** What [validateBackendService] returns, outcome by outcome. *)
Lemma validateBackendService_returns url timeout net st :
  let rq := mkRequest url timeout in
  let x := net (List.length (requests st)) rq in
  exists b,
    validateBackendService url timeout net st = (Js.Normal b, issue rq (elapsed x) st)
    /\ b_url b = url
    /\ b_responseTime b = elapsed x
    /\ b_status b = received (outcome x)
    /\ b_success b = match outcome x with
                     | Responded s _ _ _ => s <? 500
                     | NoResponse _ _ => false
                     end
    /\ b_error b = match outcome x with
                   | Responded s txt h d =>
                       if s <? 500 then None
                       else Some (serverErrorMessage (Axios.mkResponse s txt h d))
                   | NoResponse c m =>
                       Some (transportMessage url timeout m (kindOfCode c))
                   end.
Proof.
  intros rq x. subst x rq.
  unfold validateBackendService, Js.bind, Js.try_catch, Js.axios_get, Js.Date_now, Js.ret.
  cbn [Axios.timeout Axios.validateStatus].
  destruct (net _ _) as [[s txt h d | c m] dt]; cbn [Axios.settle outcome elapsed].
  - destruct (s <? 500) eqn:Hs; eexists; (split; [reflexivity|]); cbn;
      repeat split; try lia.
    unfold errorMessage. now rewrite catchBranch_bad_status.
  - eexists; (split; [reflexivity|]); cbn. repeat split; try lia.
    unfold errorMessage. now rewrite catchBranch_no_response.
Qed.

(** ** Counting and rounding *)

Lemma filter_split {A} (f : A -> bool) (l : list A) :
  (List.length (filter f l) + List.length (filter (fun x => negb (f x)) l)
   = List.length l)%nat.
Proof.
  induction l as [|a l IH]; cbn; [reflexivity|].
  destruct (f a); cbn; lia.
Qed.

Lemma Math_round_percent (s n : Z) :
  0 < n -> Math_round ((inject_Z s / inject_Z n) * 100) = (200 * s + n) / (2 * n).
Proof.
  intros Hn. unfold Math_round. rewrite Zdiv_Qdiv. apply Qfloor_comp.
  rewrite !inject_Z_plus, !inject_Z_mult.
  assert (Hq : ~ inject_Z n == 0).
  { intros H. apply (Qeq_bool_neq (inject_Z n) 0); [|exact H].
    unfold Qeq_bool, inject_Z; cbn. apply Z.eqb_neq. lia. }
  change (inject_Z 200) with (200 # 1); change (inject_Z 2) with (2 # 1).
  field. exact Hq.
Qed.

Lemma round_percent_num (s n : nat) :
  n <> O -> round_percent s n = Num ((200 * Z.of_nat s + Z.of_nat n) / (2 * Z.of_nat n)).
Proof.
  intros Hn. destruct n as [|n]; [congruence|].
  unfold round_percent. rewrite Math_round_percent by lia. reflexivity.
Qed.

Lemma div_round_half_up (s n : Z) :
  0 < n -> round_half_up_percent s n ((200 * s + n) / (2 * n)).
Proof.
  intros Hn. unfold round_half_up_percent.
  pose proof (Z.mul_div_le (200 * s + n) (2 * n) ltac:(lia)).
  pose proof (Z.mul_succ_div_gt (200 * s + n) (2 * n) ltac:(lia)).
  nia.
Qed.

Lemma div_floor (s n : Z) : 0 < n -> floor_percent s n (s * 100 / n).
Proof.
  intros Hn. unfold floor_percent.
  pose proof (Z.mul_div_le (s * 100) n Hn).
  pose proof (Z.mul_succ_div_gt (s * 100) n Hn).
  nia.
Qed.

Lemma round_half_up_bounds (s n r : Z) :
  0 < n -> 0 <= s <= n -> round_half_up_percent s n r -> 0 <= r <= 100.
Proof. unfold round_half_up_percent. intros Hn Hs [H1 H2]. nia. Qed.

Lemma floor_bounds (s n r : Z) :
  0 < n -> 0 <= s <= n -> floor_percent s n r -> 0 <= r <= 100.
Proof. unfold floor_percent. intros Hn Hs [H1 H2]. nia. Qed.

Lemma round_half_up_unique (s n r r' : Z) :
  0 < n -> round_half_up_percent s n r -> round_half_up_percent s n r' -> r = r'.
Proof. unfold round_half_up_percent. intros Hn [H1 H2] [H3 H4]. nia. Qed.

Example round_half_up_one_sixth : round_half_up_percent 1 6 17.
Proof. unfold round_half_up_percent. lia. Qed.

Example round_half_up_one_eighth : round_half_up_percent 1 8 13.
Proof. unfold round_half_up_percent. lia. Qed.

Example floor_one_sixth : floor_percent 1 6 16.
Proof. unfold floor_percent. lia. Qed.

Example round_percent_of_five :
  map (fun s => round_percent s 5) [0; 1; 2; 3; 4; 5]%nat
  = map Num [0; 20; 40; 60; 80; 100].
Proof. reflexivity. Qed.

Lemma classify_band (r : Z) : r <= 100 -> status_band r (classify (Num r)).
Proof.
  intros Hr. unfold status_band, classify, js_strict_eq, js_ge.
  destruct (r =? 100) eqn:E1; [apply Z.eqb_eq in E1 | apply Z.eqb_neq in E1];
    [|destruct (50 <=? r) eqn:E2; [apply Z.leb_le in E2 | apply Z.leb_gt in E2]];
    repeat split; intros; try discriminate; try lia.
Qed.

(** ** The summary *)

Lemma summarize_counts eps es :
  List.length es = List.length eps ->
  let s := summarize eps es in
  total s = Z.of_nat (List.length eps)
  /\ successful s = Z.of_nat (List.length (filter ep_success es))
  /\ failed s = Z.of_nat (List.length (filter (fun e => negb (ep_success e)) es))
  /\ 0 <= successful s <= total s.
Proof.
  intros Hl. cbn.
  pose proof (filter_split ep_success es) as Hs. rewrite Hl in Hs.
  repeat split; lia.
Qed.

Lemma summarize_rate eps es :
  List.length es = List.length eps -> eps <> [] ->
  let s := summarize eps es in
  exists r, successRate s = Num r
    /\ round_half_up_percent (successful s) (total s) r
    /\ 0 <= r <= 100.
Proof.
  intros Hl Hne s.
  destruct (summarize_counts eps es Hl) as (Ht & Hs & _ & Hb). fold s in Ht, Hs, Hb.
  assert (Hn : List.length eps <> O) by (destruct eps; [congruence | discriminate]).
  assert (Hr : round_half_up_percent (successful s) (total s)
                 ((200 * successful s + total s) / (2 * total s)))
    by (apply div_round_half_up; lia).
  eexists. split; [|split; [exact Hr|]].
  - subst s. cbn [summarize successRate successful total].
    rewrite round_percent_num by exact Hn. reflexivity.
  - apply (round_half_up_bounds (successful s) (total s)); [lia | exact Hb | exact Hr].
Qed.

(** ** The comprehensive validation *)

Lemma comprehensiveHostValidation_returns eps url net st :
  let rq := mkRequest url 5000 in
  let x := net (List.length (requests st)) rq in
  let st1 := issue rq (elapsed x) st in
  exists b,
    validateBackendService url 5000 net st = (Js.Normal b, st1)
    /\ if b_success b
       then exists es st',
           comprehensiveHostValidation eps url net st
             = (Js.Normal (mkReport url (now st') b
                             (Some (mkDetailed url (now st1) es (summarize eps es)))
                             (classify (successRate (summarize eps es)))), st')
           /\ entries_match url net (S (List.length (requests st))) eps es
           /\ requests st' = requests st1 ++ map (probeRequest url) eps
       else comprehensiveHostValidation eps url net st
              = (Js.Normal (mkReport url (now st1) b None FAILED), st1).
Proof.
  intros rq x st1.
  destruct (validateBackendService_returns url 5000 net st) as (b & Hb & _).
  fold rq x st1 in Hb. exists b. split; [exact Hb|].
  unfold comprehensiveHostValidation. rewrite (bind_normal _ _ _ _ _ _ Hb).
  destruct (b_success b); cbn [negb].
  - destruct (validateMultipleEndpoints_returns eps url net st1) as (es & st' & Hv & Hm & Hr).
    exists es, st'. rewrite (bind_normal _ _ _ _ _ _ Hv).
    split; [reflexivity|]. split; [|exact Hr].
    subst st1. now rewrite length_issue in Hm.
  - reflexivity.
Qed.

Lemma hostingValidation_returns eps url net st :
  exists report st',
    comprehensiveHostValidation eps url net st = (Js.Normal report, st')
    /\ hostingValidation eps url net st
       = (Js.Normal (mkVerdict report (exit_code_of (overallStatus report))), st').
Proof.
  destruct (comprehensiveHostValidation_returns eps url net st) as (b & _ & H).
  unfold hostingValidation.
  destruct (b_success b).
  - destruct H as (es & st' & H & _). eexists _, st'. split; [exact H|].
    rewrite (bind_normal _ _ _ _ _ _ H). unfold Js.ret. cbn [overallStatus].
    now destruct (classify _).
  - eexists _, _. split; [exact H|].
    rewrite (bind_normal _ _ _ _ _ _ H). reflexivity.
Qed.

(** ** The shell loop *)

Lemma validate_single_endpoint_status URL TIMEOUT endpoint net st :
  let rq := mkRequest (URL ++ endpoint)%string TIMEOUT in
  let x := net (List.length (requests st)) rq in
  Shell.validate_single_endpoint URL TIMEOUT endpoint net st
    = (if (200 <=? Shell.write_out_http_code (outcome x))
          && (Shell.write_out_http_code (outcome x) <? 300) then 0 else 1,
       issue rq (elapsed x) st).
Proof.
  cbn. unfold Shell.validate_single_endpoint.
  destruct (_ && _); [reflexivity|]. now destruct (_ && _).
Qed.

Lemma test_endpoints_counts URL TIMEOUT net eps : forall c st,
  exists k st',
    Shell.test_endpoints URL TIMEOUT eps c net st = (c + k, st')
    /\ 0 <= k <= Z.of_nat (List.length eps)
    /\ requests st' = requests st
         ++ map (fun ep => mkRequest (URL ++ path ep)%string TIMEOUT) eps.
Proof.
  induction eps as [|ep eps IH]; intros c st.
  - exists 0, st. cbn. rewrite Z.add_0_r, app_nil_r. repeat split; lia.
  - cbn [Shell.test_endpoints]. rewrite validate_single_endpoint_status.
    set (x := net _ _). set (st1 := issue _ _ st).
    destruct ((200 <=? _) && _); cbn [Z.eqb].
    + destruct (IH (c + 1) st1) as (k & st' & H & Hk & Hr).
      exists (1 + k), st'. rewrite H. split; [f_equal; lia|]. split.
      * cbn [List.length]. lia.
      * rewrite Hr. subst st1. rewrite requests_issue, <- app_assoc. reflexivity.
    + destruct (IH c st1) as (k & st' & H & Hk & Hr).
      exists k, st'. rewrite H. split; [reflexivity|]. split.
      * cbn [List.length]. lia.
      * rewrite Hr. subst st1. rewrite requests_issue, <- app_assoc. reflexivity.
Qed.

Lemma run_comprehensive_validation_returns URL TIMEOUT eps net st :
  eps <> [] ->
  let rq := mkRequest URL TIMEOUT in
  let x := net (List.length (requests st)) rq in
  let st1 := issue rq (elapsed x) st in
  let n := Z.of_nat (List.length eps) in
  if Shell.curl_fail_ok (outcome x)
  then exists k st',
      Shell.test_endpoints URL TIMEOUT eps 0 net st1 = (k, st')
      /\ 0 <= k <= n
      /\ Shell.run_comprehensive_validation URL TIMEOUT eps net st
         = (Some (Shell.mkRun
                    (Some (Shell.mkSummaryLines n k (n - k) (k * 100 / n)
                             (classify (Num (k * 100 / n)))))
                    (exit_code_of (classify (Num (k * 100 / n))))), st')
      /\ requests st' = requests st1
           ++ map (fun ep => mkRequest (URL ++ path ep)%string TIMEOUT) eps
  else Shell.run_comprehensive_validation URL TIMEOUT eps net st
         = (Some (Shell.mkRun None 1), st1).
Proof.
  intros Hne rq x st1 n.
  unfold Shell.run_comprehensive_validation. fold rq x st1 n.
  destruct (Shell.curl_fail_ok (outcome x)); cbn [negb]; [|reflexivity].
  destruct (test_endpoints_counts URL TIMEOUT net eps 0 st1) as (k & st' & Ht & Hk & Hr).
  rewrite Z.add_0_l in Ht. fold n in Hk.
  exists k, st'. rewrite Ht.
  assert (Hn : 0 < n) by (subst n; destruct eps; [congruence | cbn; lia]).
  split; [reflexivity|]. split; [exact Hk|]. split; [|exact Hr].
  unfold Shell.arith_div. destruct (n =? 0) eqn:E; [apply Z.eqb_eq in E; lia|].
  rewrite Z.quot_div_nonneg by lia.
  unfold classify, js_strict_eq, js_ge.
  destruct (k * 100 / n =? 100); [reflexivity|].
  now destruct (50 <=? k * 100 / n).
Qed.

(** Every summary that the shell function prints has this shape. *)
Lemma shell_summary_shape URL TIMEOUT eps net st run st' s :
  Shell.run_comprehensive_validation URL TIMEOUT eps net st = (Some run, st') ->
  Shell.summary run = Some s ->
  let n := Z.of_nat (List.length eps) in
  exists k,
    0 < n /\ 0 <= k <= n
    /\ s = Shell.mkSummaryLines n k (n - k) (k * 100 / n) (classify (Num (k * 100 / n)))
    /\ Shell.return_code run = exit_code_of (Shell.overall_status s).
Proof.
  intros Hrun Hs n.
  assert (Hcase : eps = [] \/ eps <> [])
    by (destruct eps; [left; reflexivity | right; discriminate]).
  destruct Hcase as [-> | Hne].
  - unfold Shell.run_comprehensive_validation in Hrun.
    destruct (negb _); [injection Hrun as <- <-; discriminate Hs|].
    cbn in Hrun. discriminate Hrun.
  - pose proof (run_comprehensive_validation_returns URL TIMEOUT eps net st Hne) as H.
    cbv zeta in H. fold n in H. destruct (Shell.curl_fail_ok _).
    + destruct H as (k & st2 & _ & Hk & H & _).
      rewrite H in Hrun. apply (f_equal fst) in Hrun. cbn [fst] in Hrun.
      exists k. split; [subst n; destruct eps; [congruence | cbn; lia]|].
      split; [exact Hk|].
      assert (E : Some run = Some (Shell.mkRun
                    (Some (Shell.mkSummaryLines n k (n - k) (k * 100 / n)
                             (classify (Num (k * 100 / n)))))
                    (exit_code_of (classify (Num (k * 100 / n))))))
        by (symmetry; exact Hrun).
      injection E as ->. cbn [Shell.summary] in Hs. injection Hs as <-.
      split; reflexivity.
    + rewrite H in Hrun. injection Hrun as <- <-. discriminate Hs.
Qed.

(** ** The claims *)

(** C1: in every report that the JavaScript aggregator returns after a
    successful pre-check, and in every summary that the shell aggregator
    prints, the overall status is HEALTHY exactly when the success rate is
    100, DEGRADED exactly when it is in [50, 100), and UNHEALTHY exactly when
    it is below 50. *)
Theorem overall_status_bands eps url URL TIMEOUT net st :
  eps <> [] ->
  (forall report st',
      comprehensiveHostValidation eps url net st = (Js.Normal report, st') ->
      b_success (basicConnectivity report) = true ->
      exists d r,
        detailedValidation report = Some d
        /\ successRate (d_summary d) = Num r
        /\ status_band r (overallStatus report))
  /\
  (forall run st' s,
      Shell.run_comprehensive_validation URL TIMEOUT eps net st = (Some run, st') ->
      Shell.summary run = Some s ->
      status_band (Shell.success_rate s) (Shell.overall_status s)).
Proof.
  intros Hne. split.
  - intros report st' Hrun Hok.
    destruct (comprehensiveHostValidation_returns eps url net st) as (b & _ & H).
    destruct (b_success b) eqn:Hb.
    + destruct H as (es & st2 & H & Hm & _).
      rewrite H in Hrun. apply normal_inj in Hrun as [<- <-].
      apply entries_match_length in Hm.
      destruct (summarize_rate eps es Hm Hne) as (r & Hr & _ & Hbound).
      eexists _, r. split; [reflexivity|]. split; [exact Hr|].
      cbn [overallStatus]. rewrite Hr. apply classify_band. lia.
    + rewrite H in Hrun. apply normal_inj in Hrun as [<- <-]. cbn in Hok. congruence.
  - intros run st' s Hrun Hs.
    destruct (shell_summary_shape _ _ _ _ _ _ _ _ Hrun Hs) as (k & Hn & Hk & -> & _).
    cbn [Shell.success_rate Shell.overall_status].
    apply classify_band.
    apply (floor_bounds k (Z.of_nat (List.length eps))); [lia | lia |].
    now apply div_floor.
Qed.

Lemma overall_status_bands_witness :
  let net := scripted [replies 200; replies 200; replies 200; replies 204;
                       replies 503; refused; refused] in
  (exists report d r,
      fst (comprehensiveHostValidation hosting_endpoints "http://h" net start)
        = Js.Normal report
      /\ detailedValidation report = Some d
      /\ successRate (d_summary d) = Num r
      /\ status_band r (overallStatus report))
  /\
  (exists run s,
      fst (Shell.run_comprehensive_validation "http://h" 10 hosting_endpoints net start)
        = Some run
      /\ Shell.summary run = Some s
      /\ status_band (Shell.success_rate s) (Shell.overall_status s)).
Proof.
  intros net.
  destruct (overall_status_bands hosting_endpoints "http://h" "http://h" 10 net start
              ltac:(discriminate)) as [HJ HS].
  split.
  - edestruct HJ as (d & r & H1 & H2 & H3); [vm_compute; reflexivity | reflexivity |].
    eexists _, d, r. split; [reflexivity|]. now split.
  - eexists _, _. split; [vm_compute; reflexivity|]. split; [reflexivity|].
    eapply HS; [vm_compute; reflexivity | reflexivity].
Defined.

(** C2, as the claim has it for the shell aggregator, fails: with one of the
    six endpoints of the script answering, the script prints 16, and 16 is
    not 100/6 rounded to the nearest integer (that is 17). *)
Lemma shell_rate_is_not_rounded :
  exists s,
    fst (Shell.run_comprehensive_validation "http://h" 10 Shell.endpoints one_of_six start)
      = Some (Shell.mkRun (Some s) 1)
    /\ Shell.total_count s = 6
    /\ Shell.success_count s = 1
    /\ Shell.success_rate s = 16
    /\ ~ round_half_up_percent (Shell.success_count s) (Shell.total_count s)
                               (Shell.success_rate s).
Proof.
  eexists. split; [vm_compute; reflexivity|]. cbn.
  repeat split. unfold round_half_up_percent. lia.
Qed.

(** Binary64 and exact arithmetic give the same rate for every count of
    successes out of fewer than 40 endpoints. *)
Lemma binary64_table :
  forallb (fun n =>
             forallb (fun s => JsNumber_eqb (round_percent_binary64 s n) (round_percent s n))
                     (seq 0 (S n)))
          (seq 0 40) = true.
Proof. vm_compute. reflexivity. Qed.

Lemma JsNumber_eqb_eq (x y : JsNumber) : JsNumber_eqb x y = true -> x = y.
Proof.
  destruct x, y; cbn; try discriminate; try reflexivity.
  intros H. apply Z.eqb_eq in H. now subst.
Qed.

Lemma binary64_agrees_below_40 (s n : nat) :
  (s <= n)%nat -> (n < 40)%nat -> round_percent_binary64 s n = round_percent s n.
Proof.
  intros Hs Hn. apply JsNumber_eqb_eq.
  pose proof binary64_table as T. rewrite forallb_forall in T.
  specialize (T n ltac:(apply in_seq; lia)). cbv beta in T.
  rewrite forallb_forall in T. apply T. apply in_seq. lia.
Qed.

(** From 40 endpoints on binary64 can round a tie down: 23 of 40 is 57.5
    exactly and 57.49999999999999 in binary64. *)
Example binary64_rounds_a_tie_down :
  round_percent_binary64 23 40 = Num 57 /\ round_percent 23 40 = Num 58.
Proof. split; vm_compute; reflexivity. Qed.

(** C2, amended: for a non-empty list of fewer than 40 endpoints the
    JavaScript aggregator reports [successful / total * 100] rounded to the
    nearest integer, halves upwards, and this is the value of the binary64
    expression of the source on the counts of the report; for every
    non-empty list the shell aggregator reports [successful * 100 / total]
    rounded downwards. *)
Theorem success_rate_rounding eps url URL TIMEOUT net st :
  eps <> [] ->
  ((List.length eps < 40)%nat ->
   exists d st' r,
     validateMultipleEndpoints eps url net st = (Js.Normal d, st')
     /\ successRate (d_summary d) = Num r
     /\ round_half_up_percent (successful (d_summary d)) (total (d_summary d)) r
     /\ round_percent_binary64 (List.length (filter ep_success (d_endpoints d)))
                               (List.length eps) = Num r)
  /\
  (forall run st' s,
      Shell.run_comprehensive_validation URL TIMEOUT eps net st = (Some run, st') ->
      Shell.summary run = Some s ->
      floor_percent (Shell.success_count s) (Shell.total_count s) (Shell.success_rate s)).
Proof.
  intros Hne. split.
  - intros Hlen.
    destruct (validateMultipleEndpoints_returns eps url net st) as (es & st' & H & Hm & _).
    apply entries_match_length in Hm.
    destruct (summarize_rate eps es Hm Hne) as (r & Hr & Hround & _).
    eexists _, st', r. split; [exact H|]. split; [exact Hr|]. split; [exact Hround|].
    cbn [d_endpoints]. rewrite <- Hr. cbn [summarize successRate].
    apply binary64_agrees_below_40; [|exact Hlen].
    pose proof (filter_split ep_success es). lia.
  - intros run st' s Hrun Hs.
    destruct (shell_summary_shape _ _ _ _ _ _ _ _ Hrun Hs) as (k & Hn & Hk & -> & _).
    cbn [Shell.success_rate Shell.success_count Shell.total_count].
    now apply div_floor.
Qed.

Lemma success_rate_rounding_witness :
  (exists d,
      fst (validateMultipleEndpoints eight_endpoints "http://h" (scripted [replies 200]) start)
        = Js.Normal d
      /\ total (d_summary d) = 8
      /\ successful (d_summary d) = 1
      /\ successRate (d_summary d) = Num 13
      /\ round_half_up_percent 1 8 13
      /\ round_percent_binary64 1 8 = Num 13)
  /\
  (exists run s,
      fst (Shell.run_comprehensive_validation "http://h" 10 Shell.endpoints one_of_six start)
        = Some run
      /\ Shell.summary run = Some s
      /\ floor_percent (Shell.success_count s) (Shell.total_count s) (Shell.success_rate s)).
Proof.
  split.
  - destruct (success_rate_rounding eight_endpoints "http://h" "http://h" 10
                (scripted [replies 200]) start ltac:(discriminate))
      as [HJ _].
    destruct HJ as (d & st' & r & H & Hr & Hh & Hb); [cbn; lia|].
    vm_compute in H. apply normal_inj in H as [<- _].
    cbn [d_summary d_endpoints successRate successful total] in *.
    injection Hr as <-.
    eexists. split; [vm_compute; reflexivity|].
    repeat split; try reflexivity; try apply Hh; try exact Hb.
  - destruct (success_rate_rounding Shell.endpoints "http://h" "http://h" 10
                one_of_six start ltac:(discriminate)) as [_ HS].
    eexists _, _. split; [vm_compute; reflexivity|]. split; [reflexivity|].
    eapply HS; [vm_compute; reflexivity | reflexivity].
Defined.

(** C3: an endpoint counts as successful exactly when a status code was
    received and lies in [200, 300); every other response and every transport
    error counts as failure.  This holds for each entry that the loop of
    [validateMultipleEndpoints] pushes, hence for each entry of its report,
    for [validateService] and for [validate_single_endpoint]. *)
Theorem success_iff_status_2xx :
  (forall baseUrl ep results net st,
      exists e st',
        probeEndpoint baseUrl ep results net st = (Js.Normal (results ++ [e]), st')
        /\ (ep_success e = true
            <-> in_2xx (outcome (net (List.length (requests st))
                                     (probeRequest baseUrl ep)))))
  /\
  (forall eps baseUrl net st,
      exists d st',
        validateMultipleEndpoints eps baseUrl net st = (Js.Normal d, st')
        /\ forall i ep,
            nth_error eps i = Some ep ->
            exists e,
              nth_error (d_endpoints d) i = Some e
              /\ (ep_success e = true
                  <-> in_2xx (outcome (net (List.length (requests st) + i)%nat
                                           (probeRequest baseUrl ep)))))
  /\
  (forall net st,
      fst (Simple.validateService net st) = true
      <-> in_2xx (outcome (net (List.length (requests st)) Simple.options)))
  /\
  (forall URL TIMEOUT endpoint net st,
      fst (Shell.validate_single_endpoint URL TIMEOUT endpoint net st) = 0
      <-> in_2xx (outcome (net (List.length (requests st))
                               (mkRequest (URL ++ endpoint)%string TIMEOUT)))).
Proof.
  repeat apply conj.
  - intros baseUrl ep results net st.
    destruct (probeEndpoint_records baseUrl ep results net st) as (e & H & R).
    exists e. eexists. split; [exact H|]. apply R.
  - intros eps baseUrl net st.
    destruct (validateMultipleEndpoints_returns eps baseUrl net st) as (es & st' & H & Hm & _).
    eexists _, st'. split; [exact H|]. intros i ep Hi. cbn [d_endpoints].
    destruct (entries_match_nth _ _ _ _ _ _ _ Hm Hi) as (e & He & R).
    exists e. split; [exact He|]. apply R.
  - intros net st. unfold Simple.validateService. cbn [fst].
    destruct (outcome _) as [s txt h d | c m].
    + rewrite in_range_bool. symmetry. apply in_2xx_responded.
    + split; [discriminate|]. intros H. now apply in_2xx_no_response in H.
  - intros URL TIMEOUT endpoint net st.
    rewrite validate_single_endpoint_status. cbn [fst].
    destruct (outcome _) as [s txt h d | c m]; cbn [Shell.write_out_http_code].
    + rewrite in_2xx_responded, <- in_range_bool.
      destruct (_ && _); split; congruence.
    + cbn. split; [discriminate|]. intros H. now apply in_2xx_no_response in H.
Qed.

Lemma success_iff_status_2xx_witness :
  exists e,
    nth_error (match fst (validateMultipleEndpoints hosting_endpoints "http://h"
                            (scripted [replies 200; replies 404]) start) with
               | Js.Normal d => d_endpoints d
               | Js.Thrown _ => []
               end) 1 = Some e
    /\ ep_success e = false.
Proof.
  destruct success_iff_status_2xx as (_ & H & _).
  destruct (H hosting_endpoints "http://h" (scripted [replies 200; replies 404]) start)
    as (d & st' & Hrun & Hall).
  destruct (Hall 1%nat (mkEndpoint "/health" "Health Check") eq_refl) as (e & He & Hiff).
  exists e. rewrite Hrun. split; [exact He|].
  destruct (ep_success e); [|reflexivity].
  destruct (proj1 Hiff eq_refl) as (s & Hs & Hr).
  injection Hs as <-. lia.
Defined.

Lemma exit_code_of_zero status : exit_code_of status = 0 <-> status = HEALTHY.
Proof. destruct status; cbn; split; congruence. Qed.

(** C4: the exit code is a function of the overall status alone: 0 for
    HEALTHY and 1 for DEGRADED, UNHEALTHY and FAILED.  The JavaScript suite
    always returns a verdict whose exit code is that function of its status,
    and [main] exits with it; the shell function returns that function of the
    status it printed, and 1 when the service was not accessible. *)
Theorem exit_code_from_status eps url URL TIMEOUT net st :
  (exists v st',
      hostingValidation eps url net st = (Js.Normal v, st')
      /\ exitCode v = exit_code_of (overallStatus (result v))
      /\ main eps url net st = exitCode v
      /\ (exitCode v = 0 <-> overallStatus (result v) = HEALTHY))
  /\
  (forall run st',
      Shell.run_comprehensive_validation URL TIMEOUT eps net st = (Some run, st') ->
      Shell.return_code run
      = match Shell.summary run with
        | Some s => exit_code_of (Shell.overall_status s)
        | None => exit_code_of FAILED
        end)
  /\
  exit_code_of HEALTHY = 0 /\ exit_code_of DEGRADED = 1
  /\ exit_code_of UNHEALTHY = 1 /\ exit_code_of FAILED = 1.
Proof.
  split; [|split; [|repeat split]].
  - destruct (hostingValidation_returns eps url net st) as (report & st' & _ & H).
    eexists _, st'. split; [exact H|]. cbn [exitCode result].
    split; [reflexivity|]. split; [|apply exit_code_of_zero].
    unfold main. now rewrite H.
  - intros run st' Hrun.
    destruct (Shell.summary run) as [s|] eqn:Hs.
    + now destruct (shell_summary_shape _ _ _ _ _ _ _ _ Hrun Hs) as (k & _ & _ & _ & ->).
    + unfold Shell.run_comprehensive_validation in Hrun.
      destruct (negb _); [injection Hrun as <- <-; reflexivity|].
      destruct (Shell.test_endpoints _ _ _ _ _ _) as [k st2].
      destruct (Shell.arith_div _ _); [|discriminate Hrun].
      injection Hrun as <- <-. discriminate Hs.
Qed.

Lemma exit_code_from_status_witness :
  exists run,
    fst (Shell.run_comprehensive_validation "http://h" 10 Shell.endpoints one_of_six start)
      = Some run
    /\ Shell.return_code run = 1.
Proof.
  destruct (exit_code_from_status Shell.endpoints "http://h" "http://h" 10 one_of_six start)
    as (_ & HS & _).
  eexists. split; [vm_compute; reflexivity|].
  erewrite HS; [|vm_compute; reflexivity]. reflexivity.
Defined.

(** C5: when the basic connectivity test of the base URL fails, the suite
    issues no further request, returns a report whose overall status is
    FAILED and whose detailed section is null, and exits with code 1. *)
Theorem precheck_failure_short_circuits eps url net st b st1 :
  validateBackendService url 5000 net st = (Js.Normal b, st1) ->
  b_success b = false ->
  hostingValidation eps url net st
    = (Js.Normal (mkVerdict (mkReport url (now st1) b None FAILED) 1), st1)
  /\ requests st1 = requests st ++ [mkRequest url 5000]
  /\ main eps url net st = 1.
Proof.
  intros Hb Hfail.
  destruct (comprehensiveHostValidation_returns eps url net st) as (b' & Hb' & H).
  rewrite Hb in Hb'. apply normal_inj in Hb' as [<- ->].
  rewrite Hfail in H.
  assert (Hv : hostingValidation eps url net st
               = (Js.Normal (mkVerdict (mkReport url
                     (now (issue (mkRequest url 5000)
                            (elapsed (net (List.length (requests st)) (mkRequest url 5000)))
                            st)) b None FAILED) 1),
                  issue (mkRequest url 5000)
                    (elapsed (net (List.length (requests st)) (mkRequest url 5000))) st)).
  { unfold hostingValidation. rewrite (bind_normal _ _ _ _ _ _ H). reflexivity. }
  split; [exact Hv|]. split; [reflexivity|].
  unfold main. now rewrite Hv.
Qed.

Lemma precheck_failure_short_circuits_witness :
  exists b t,
    fst (hostingValidation hosting_endpoints "http://h" (scripted [replies 503]) start)
      = Js.Normal (mkVerdict (mkReport "http://h" t b None FAILED) 1)
    /\ b_status b = Some 503.
Proof.
  edestruct (precheck_failure_short_circuits hosting_endpoints "http://h"
               (scripted [replies 503]) start) as (H & _);
    [vm_compute; reflexivity | reflexivity |].
  eexists _, _. rewrite H. split; reflexivity.
Defined.

(** C6: the basic connectivity test accepts every response whose status is
    below 500.  The overall status is FAILED exactly when the request to the
    base URL met a transport error or a status of 500 or more; in every other
    case, a 404 included, the detailed validation runs: the report carries
    its result and one request per endpoint follows the first. *)
Theorem failed_only_without_answer_below_500 eps url net st :
  let rq := mkRequest url 5000 in
  let o := outcome (net (List.length (requests st)) rq) in
  exists report st',
    comprehensiveHostValidation eps url net st = (Js.Normal report, st')
    /\ b_success (basicConnectivity report)
       = match o with
         | Responded s _ _ _ => s <? 500
         | NoResponse _ _ => false
         end
    /\ (overallStatus report = FAILED
        <-> received o = None \/ exists s, received o = Some s /\ 500 <= s)
    /\ (overallStatus report = FAILED
        -> detailedValidation report = None /\ requests st' = requests st ++ [rq])
    /\ (overallStatus report <> FAILED
        -> (exists d, detailedValidation report = Some d)
           /\ requests st' = requests st ++ rq :: map (probeRequest url) eps).
Proof.
  intros rq o.
  destruct (validateBackendService_returns url 5000 net st) as (b0 & Hb0 & _ & _ & _ & Hs & _).
  destruct (comprehensiveHostValidation_returns eps url net st) as (b & Hb & H).
  fold rq in Hb0, Hb, H, Hs. rewrite Hb0 in Hb. apply normal_inj in Hb as [-> _].
  fold o in Hs.
  assert (Hfail : b_success b = false
                  <-> received o = None \/ exists s, received o = Some s /\ 500 <= s).
  { rewrite Hs. destruct o as [s txt h d | c m]; cbn.
    - rewrite Z.ltb_ge. split.
      + intros Hge. right. now exists s.
      + intros [Hn | (s' & E & Hge)]; [discriminate | now injection E as ->].
    - split; [now left | reflexivity]. }
  destruct (b_success b) eqn:Hok.
  - destruct H as (es & st' & H & _ & Hr).
    eexists _, st'. split; [exact H|]. cbn [basicConnectivity overallStatus detailedValidation].
    split; [congruence|].
    assert (Hnf : classify (successRate (summarize eps es)) <> FAILED).
    { unfold classify. destruct (js_strict_eq _ _); [discriminate|].
      destruct (js_ge _ _); discriminate. }
    split; [|split].
    + split; [intros E; now elim Hnf | intros E; apply Hfail in E; discriminate E].
    + intros E. now elim Hnf.
    + intros _. split; [eexists; reflexivity|].
      rewrite Hr, requests_issue, <- app_assoc. reflexivity.
  - eexists _, _. split; [exact H|]. cbn [basicConnectivity overallStatus detailedValidation].
    split; [congruence|]. split; [|split].
    + split; [intros _; now apply Hfail | reflexivity].
    + intros _. split; reflexivity.
    + intros E. now elim E.
Qed.

Lemma failed_only_without_answer_below_500_witness :
  exists report d,
    fst (comprehensiveHostValidation hosting_endpoints "http://h" (scripted [replies 404]) start)
      = Js.Normal report
    /\ overallStatus report = UNHEALTHY
    /\ detailedValidation report = Some d.
Proof.
  destruct (failed_only_without_answer_below_500 hosting_endpoints "http://h"
              (scripted [replies 404]) start) as (report & st' & H & _ & Hiff & _ & Hrun).
  assert (E : fst (comprehensiveHostValidation hosting_endpoints "http://h"
                     (scripted [replies 404]) start) = Js.Normal report)
    by now rewrite H.
  assert (Hs : overallStatus report = UNHEALTHY).
  { vm_compute in E. injection E as <-. reflexivity. }
  destruct Hrun as [(d & Hd) _]; [rewrite Hs; discriminate|].
  exists report, d. now repeat split.
Defined.

(** C7: in every summary [successful + failed = total], and [total] is the
    number of endpoints of the list; [successful] and [failed] count the
    entries with and without success.  The lines that the shell function
    prints add up in the same way. *)
Theorem counts_add_up eps baseUrl URL TIMEOUT net st :
  (exists d st',
      validateMultipleEndpoints eps baseUrl net st = (Js.Normal d, st')
      /\ successful (d_summary d) + failed (d_summary d) = total (d_summary d)
      /\ total (d_summary d) = Z.of_nat (List.length eps)
      /\ successful (d_summary d)
         = Z.of_nat (List.length (filter ep_success (d_endpoints d)))
      /\ failed (d_summary d)
         = Z.of_nat (List.length (filter (fun e => negb (ep_success e)) (d_endpoints d))))
  /\
  (forall run st' s,
      Shell.run_comprehensive_validation URL TIMEOUT eps net st = (Some run, st') ->
      Shell.summary run = Some s ->
      Shell.success_count s + Shell.failed_count s = Shell.total_count s
      /\ Shell.total_count s = Z.of_nat (List.length eps)
      /\ 0 <= Shell.success_count s <= Shell.total_count s).
Proof.
  split.
  - destruct (validateMultipleEndpoints_returns eps baseUrl net st) as (es & st' & H & Hm & _).
    apply entries_match_length in Hm.
    destruct (summarize_counts eps es Hm) as (Ht & Hs & Hf & _).
    eexists _, st'. split; [exact H|]. cbn [d_summary d_endpoints].
    repeat split; try assumption. cbn. lia.
  - intros run st' s Hrun Hs.
    destruct (shell_summary_shape _ _ _ _ _ _ _ _ Hrun Hs) as (k & Hn & Hk & -> & _).
    cbn [Shell.success_count Shell.failed_count Shell.total_count].
    repeat split; lia.
Qed.

Lemma counts_add_up_witness :
  exists run s,
    fst (Shell.run_comprehensive_validation "http://h" 10 Shell.endpoints one_of_six start)
      = Some run
    /\ Shell.summary run = Some s
    /\ Shell.success_count s + Shell.failed_count s = Shell.total_count s
    /\ Shell.total_count s = Z.of_nat (List.length Shell.endpoints).
Proof.
  destruct (counts_add_up Shell.endpoints "http://h" "http://h" 10 one_of_six start)
    as (_ & HS).
  eexists _, _. split; [vm_compute; reflexivity|]. split; [reflexivity|].
  edestruct HS as (H1 & H2 & _); [vm_compute; reflexivity | reflexivity |].
  split; [exact H1 | exact H2].
Defined.

(** C8: no failure of an endpoint escapes as an exception.  Whatever the
    outcome of its request, the body of the loop completes normally with one
    entry more; so [validateMultipleEndpoints] completes normally with one
    entry for each endpoint of the list, never abruptly, and so does the suite
    built on it. *)
Theorem endpoint_failures_are_data eps baseUrl net st :
  (forall ep results st0,
      exists e st1,
        probeEndpoint baseUrl ep results net st0 = (Js.Normal (results ++ [e]), st1))
  /\
  (exists d st',
      validateMultipleEndpoints eps baseUrl net st = (Js.Normal d, st')
      /\ List.length (d_endpoints d) = List.length eps
      /\ map ep_path (d_endpoints d) = map path eps)
  /\
  (forall e st', validateMultipleEndpoints eps baseUrl net st <> (Js.Thrown e, st'))
  /\
  (exists v st', hostingValidation eps baseUrl net st = (Js.Normal v, st')).
Proof.
  destruct (validateMultipleEndpoints_returns eps baseUrl net st) as (es & st' & H & Hm & _).
  repeat apply conj.
  - intros ep results st0.
    destruct (probeEndpoint_records baseUrl ep results net st0) as (e & He & _).
    eexists e, _. exact He.
  - eexists _, st'. split; [exact H|]. cbn [d_endpoints]. split.
    + now apply entries_match_length in Hm.
    + apply entries_match_paths in Hm.
      apply (f_equal (map fst)) in Hm. rewrite !map_map in Hm. exact Hm.
  - intros e st2 Hthrown. rewrite H in Hthrown. discriminate Hthrown.
  - destruct (hostingValidation_returns eps baseUrl net st) as (report & st2 & _ & Hv).
    eexists _, st2. exact Hv.
Qed.

Lemma endpoint_failures_are_data_witness :
  exists d,
    fst (validateMultipleEndpoints hosting_endpoints "http://h" (scripted []) start)
      = Js.Normal d
    /\ List.length (d_endpoints d) = 5%nat.
Proof.
  destruct (endpoint_failures_are_data hosting_endpoints "http://h" (scripted []) start)
    as (_ & (d & st' & H & Hl & _) & _).
  exists d. rewrite H. split; [reflexivity | exact Hl].
Defined.

(** C9: every probe outcome sets exactly one of status code and error kind.
    An entry of [validateMultipleEndpoints] carries the status code exactly
    when a response was received, whatever its status, and an error kind
    exactly when none was.  The result of [validateBackendService] carries
    the status under the same condition, and the message of one of the five
    transport error kinds exactly when no response was received. *)
Theorem one_of_status_and_error_kind :
  (forall baseUrl ep results net st,
      let o := outcome (net (List.length (requests st)) (probeRequest baseUrl ep)) in
      exists e st',
        probeEndpoint baseUrl ep results net st = (Js.Normal (results ++ [e]), st')
        /\ statusCode e = received o
        /\ (errorKind e <> None <-> received o = None)
        /\ (statusCode e = None <-> errorKind e <> None))
  /\
  (forall url timeout net st,
      let o := outcome (net (List.length (requests st)) (mkRequest url timeout)) in
      exists b st',
        validateBackendService url timeout net st = (Js.Normal b, st')
        /\ b_status b = received o
        /\ ((exists k m, b_error b = Some (transportMessage url timeout m k))
            <-> received o = None)).
Proof.
  split.
  - intros baseUrl ep results net st o.
    destruct (probeEndpoint_records baseUrl ep results net st) as (e & H & R).
    destruct R as (_ & _ & Hs & Hk & _). fold o in Hs, Hk.
    exists e. eexists. split; [exact H|]. split; [exact Hs|]. split; [exact Hk|].
    rewrite Hs. symmetry. exact Hk.
  - intros url timeout net st o.
    destruct (validateBackendService_returns url timeout net st)
      as (b & H & _ & _ & Hs & _ & He).
    fold o in Hs, He.
    exists b. eexists. split; [exact H|]. split; [exact Hs|].
    rewrite He. destruct o as [s txt h d | c m]; cbn [received].
    + split; [|discriminate]. intros (k & m & E).
      destruct (s <? 500); [discriminate E|].
      injection E as E. symmetry in E. now apply transport_not_server in E.
    + split; [reflexivity|]. intros _. now exists (kindOfCode c), m.
Qed.

Lemma one_of_status_and_error_kind_witness :
  exists b,
    fst (validateBackendService "http://h" 5000 (scripted []) start) = Js.Normal b
    /\ b_status b = None
    /\ exists k m, b_error b = Some (transportMessage "http://h" 5000 m k).
Proof.
  destruct one_of_status_and_error_kind as [_ H].
  destruct (H "http://h" 5000 (scripted []) start) as (b & st' & Hrun & Hs & Hk).
  exists b. rewrite Hrun. split; [reflexivity|]. split; [exact Hs|].
  apply Hk. reflexivity.
Defined.

(** C10: for every endpoint list the loop issues exactly one request per
    endpoint, at [baseUrl + path], in the order of the list, and the report
    holds exactly one entry per endpoint, in the same order, each recording
    the outcome of the request of its own endpoint. *)
Theorem one_probe_per_endpoint_in_order eps baseUrl net st :
  exists d st',
    validateMultipleEndpoints eps baseUrl net st = (Js.Normal d, st')
    /\ requests st'
       = requests st ++ map (fun ep => mkRequest (baseUrl ++ path ep)%string 5000) eps
    /\ map (fun e => (ep_path e, ep_name e)) (d_endpoints d)
       = map (fun ep => (path ep, name ep)) eps
    /\ entries_match baseUrl net (List.length (requests st)) eps (d_endpoints d).
Proof.
  destruct (validateMultipleEndpoints_returns eps baseUrl net st) as (es & st' & H & Hm & Hr).
  eexists _, st'. split; [exact H|]. cbn [d_endpoints].
  split; [exact Hr|]. split; [|exact Hm].
  now apply entries_match_paths in Hm.
Qed.

Lemma one_probe_per_endpoint_in_order_witness :
  exists d st',
    validateMultipleEndpoints hosting_endpoints "http://h" three_of_five start
      = (Js.Normal d, st')
    /\ map req_url (requests st')
       = ["http://h/"; "http://h/health"; "http://h/api/status"; "http://h/api/health";
          "http://h/status"]
    /\ map ep_path (d_endpoints d)
       = ["/"; "/health"; "/api/status"; "/api/health"; "/status"].
Proof.
  destruct (one_probe_per_endpoint_in_order hosting_endpoints "http://h" three_of_five start)
    as (d & st' & H & Hr & Hp & _).
  exists d, st'. split; [exact H|]. split.
  - rewrite Hr. reflexivity.
  - apply (f_equal (map fst)) in Hp. rewrite !map_map in Hp. exact Hp.
Defined.

(** * Further properties of the scripts *)

(** ** Answers in the 2xx range *)

Lemma is_2xx_in_2xx o : is_2xx o = true <-> in_2xx o.
Proof.
  destruct o as [s txt h d | c m]; cbn [is_2xx].
  - rewrite in_range_bool. symmetry. apply in_2xx_responded.
  - split; [discriminate|]. intros H. now apply in_2xx_no_response in H.
Qed.

Lemma filter_all {A} (f : A -> bool) (l : list A) :
  List.length (filter f l) = List.length l <-> forallb f l = true.
Proof.
  induction l as [|a l IH]; cbn; [tauto|].
  pose proof (filter_split f l) as Hs.
  destruct (f a); cbn.
  - rewrite <- IH. lia.
  - split; [lia | discriminate].
Qed.

Lemma outcomes_from_length net rqs : forall k,
  List.length (outcomes_from net k rqs) = List.length rqs.
Proof. induction rqs as [|rq rqs IH]; intros k; cbn; [reflexivity|]. now rewrite IH. Qed.

(** The successful entries are as many as the answers in the 2xx range. *)
Lemma entries_match_successes baseUrl net eps : forall k es,
  entries_match baseUrl net k eps es ->
  List.length (filter ep_success es)
  = List.length (filter is_2xx (outcomes_from net k (map (probeRequest baseUrl) eps))).
Proof.
  induction eps as [|ep eps IH]; intros k [|e es] H; cbn in H; try tauto.
  destruct H as [(_ & _ & _ & _ & Hs) H].
  cbn [map outcomes_from filter].
  rewrite <- is_2xx_in_2xx in Hs.
  destruct (is_2xx _); destruct (ep_success e); cbn [List.length];
    try (f_equal; now apply IH); try now apply IH.
  - destruct Hs as [_ Hs]. discriminate (Hs eq_refl).
  - destruct Hs as [Hs _]. discriminate (Hs eq_refl).
Qed.

(** The shell loop adds one to [success_count] for each answer in the 2xx
    range. *)
Lemma test_endpoints_successes URL TIMEOUT net eps : forall c st,
  fst (Shell.test_endpoints URL TIMEOUT eps c net st)
  = c + Z.of_nat (List.length
          (filter is_2xx
             (outcomes_from net (List.length (requests st))
                (map (fun ep => mkRequest (URL ++ path ep)%string TIMEOUT) eps)))).
Proof.
  induction eps as [|ep eps IH]; intros c st.
  - cbn. lia.
  - cbn [Shell.test_endpoints]. rewrite validate_single_endpoint_status.
    cbn [map outcomes_from filter].
    set (x := net _ _).
    assert (E : (200 <=? Shell.write_out_http_code (outcome x))
                && (Shell.write_out_http_code (outcome x) <? 300) = is_2xx (outcome x))
      by (destruct (outcome x); reflexivity).
    rewrite E. destruct (is_2xx (outcome x)); cbn [Z.eqb]; rewrite IH, length_issue.
    + cbn [List.length]. lia.
    + reflexivity.
Qed.

(** ** Rates and counts *)

Lemma floor_rate_full (k n : Z) : 0 < n -> 0 <= k <= n -> (k * 100 / n = 100 <-> k = n).
Proof.
  intros Hn Hk. pose proof (div_floor k n Hn) as [H1 H2]. split; intros H.
  - rewrite H in H1, H2. nia.
  - subst k. rewrite Z.mul_comm. apply Z.div_mul. lia.
Qed.

Lemma floor_rate_half (k n : Z) : 0 < n -> (50 <= k * 100 / n <-> n <= 2 * k).
Proof.
  intros Hn. pose proof (div_floor k n Hn) as [H1 H2]. split; intros H; nia.
Qed.

Lemma round_rate_full (s n : Z) :
  0 < n -> ((200 * s + n) / (2 * n) = 100 <-> 199 * n <= 200 * s < 201 * n).
Proof.
  intros Hn. pose proof (div_round_half_up s n Hn) as [H1 H2]. split; intros H.
  - rewrite H in H1, H2. lia.
  - nia.
Qed.

Lemma round_rate_half (s n : Z) :
  0 < n -> (50 <= (200 * s + n) / (2 * n) <-> 99 * n <= 200 * s).
Proof.
  intros Hn. pose proof (div_round_half_up s n Hn) as [H1 H2]. split; intros H; nia.
Qed.

Lemma floor_le_round (k n : Z) : 0 < n -> k * 100 / n <= (200 * k + n) / (2 * n).
Proof.
  intros Hn.
  pose proof (div_floor k n Hn) as [H1 H2].
  pose proof (div_round_half_up k n Hn) as [H3 H4]. nia.
Qed.

Lemma classify_num (r : Z) :
  classify (Num r) = if r =? 100 then HEALTHY else if 50 <=? r then DEGRADED else UNHEALTHY.
Proof. reflexivity. Qed.

Lemma classify_monotone (r r' : Z) :
  r <= r' <= 100 -> rank (classify (Num r)) <= rank (classify (Num r')).
Proof.
  intros H. rewrite !classify_num.
  destruct (r =? 100) eqn:E1; destruct (r' =? 100) eqn:E2;
    destruct (50 <=? r) eqn:E3; destruct (50 <=? r') eqn:E4; cbn; lia.
Qed.

(** ** The shell run, answer by answer *)

Lemma shell_run_semantics URL TIMEOUT eps net st :
  eps <> [] ->
  let rq0 := mkRequest URL TIMEOUT in
  let x0 := net (List.length (requests st)) rq0 in
  let rqs := map (fun ep => mkRequest (URL ++ path ep)%string TIMEOUT) eps in
  let n := Z.of_nat (List.length eps) in
  let k := Z.of_nat (List.length
             (filter is_2xx (outcomes_from net (S (List.length (requests st))) rqs))) in
  if answered_below 400 (outcome x0)
  then exists st',
      Shell.run_comprehensive_validation URL TIMEOUT eps net st
      = (Some (Shell.mkRun
                 (Some (Shell.mkSummaryLines n k (n - k) (k * 100 / n)
                          (classify (Num (k * 100 / n)))))
                 (exit_code_of (classify (Num (k * 100 / n))))), st')
      /\ requests st' = requests st ++ rq0 :: rqs
  else Shell.run_comprehensive_validation URL TIMEOUT eps net st
       = (Some (Shell.mkRun None 1), issue rq0 (elapsed x0) st).
Proof.
  intros Hne rq0 x0 rqs n k.
  pose proof (run_comprehensive_validation_returns URL TIMEOUT eps net st Hne) as H.
  cbv zeta in H. fold rq0 x0 n in H.
  change (Shell.curl_fail_ok (outcome x0)) with (answered_below 400 (outcome x0)) in H.
  destruct (answered_below 400 (outcome x0)); [|exact H].
  destruct H as (k' & st' & Ht & _ & Hrun & Hr).
  pose proof (test_endpoints_successes URL TIMEOUT net eps 0 (issue rq0 (elapsed x0) st)) as Hk.
  rewrite Ht, length_issue in Hk. cbn [fst] in Hk. rewrite Z.add_0_l in Hk.
  fold rqs in Hk, Hr. fold k in Hk. subst k'.
  exists st'. split; [exact Hrun|].
  rewrite Hr, requests_issue, <- app_assoc. reflexivity.
Qed.

Lemma successes_bounded net k0 rqs :
  0 <= Z.of_nat (List.length (filter is_2xx (outcomes_from net k0 rqs)))
    <= Z.of_nat (List.length rqs).
Proof.
  pose proof (filter_split is_2xx (outcomes_from net k0 rqs)) as H.
  rewrite outcomes_from_length in H. lia.
Qed.

Lemma successes_all net k0 rqs :
  Z.of_nat (List.length (filter is_2xx (outcomes_from net k0 rqs)))
    = Z.of_nat (List.length rqs)
  <-> forallb is_2xx (outcomes_from net k0 rqs) = true.
Proof.
  rewrite <- filter_all, outcomes_from_length. lia.
Qed.

(** ** comprehensive-validation.sh, end to end *)

(** X1: the shell function prints a summary exactly when the base URL
    answered with a status below 400.  Otherwise it returns 1 and the request
    to the base URL is the only one it made. *)
Theorem shell_precheck_gate URL TIMEOUT eps net st :
  eps <> [] ->
  let rq0 := mkRequest URL TIMEOUT in
  let o0 := outcome (net (List.length (requests st)) rq0) in
  exists run st',
    Shell.run_comprehensive_validation URL TIMEOUT eps net st = (Some run, st')
    /\ (Shell.summary run = None <-> answered_below 400 o0 = false)
    /\ (Shell.summary run = None ->
        Shell.return_code run = 1 /\ requests st' = requests st ++ [rq0]).
Proof.
  intros Hne rq0 o0.
  pose proof (shell_run_semantics URL TIMEOUT eps net st Hne) as H.
  cbv zeta in H. fold rq0 o0 in H.
  destruct (answered_below 400 o0).
  - destruct H as (st' & H & _). eexists _, st'. split; [exact H|].
    cbn [Shell.summary]. split; [split; discriminate | discriminate].
  - eexists _, _. split; [exact H|]. cbn [Shell.summary Shell.return_code].
    split; [tauto|]. intros _. split; reflexivity.
Qed.

Lemma shell_precheck_gate_witness :
  exists run st',
    Shell.run_comprehensive_validation "http://h" 10 Shell.endpoints
      (scripted [replies 404]) start = (Some run, st')
    /\ Shell.return_code run = 1
    /\ requests st' = [mkRequest "http://h" 10].
Proof.
  destruct (shell_precheck_gate "http://h" 10 Shell.endpoints (scripted [replies 404]) start
              ltac:(discriminate)) as (run & st' & H & Hiff & Hnone).
  exists run, st'. split; [exact H|].
  apply Hnone, Hiff. reflexivity.
Defined.

(** X2: when the shell function prints a summary, it has requested the base
    URL and then each endpoint once, at URL + path and in the order of the
    array, and the success count it prints is the number of those endpoint
    requests that were answered with a status in [200, 300). *)
Theorem shell_counts_answers URL TIMEOUT eps net st run st' s :
  Shell.run_comprehensive_validation URL TIMEOUT eps net st = (Some run, st') ->
  Shell.summary run = Some s ->
  let rqs := map (fun ep => mkRequest (URL ++ path ep)%string TIMEOUT) eps in
  requests st' = requests st ++ mkRequest URL TIMEOUT :: rqs
  /\ Shell.success_count s
     = Z.of_nat (List.length
         (filter is_2xx (outcomes_from net (S (List.length (requests st))) rqs))).
Proof.
  intros Hrun Hs rqs.
  destruct (shell_summary_shape _ _ _ _ _ _ _ _ Hrun Hs) as (_ & Hn & _).
  assert (Hne : eps <> []) by (intros ->; cbn in Hn; lia).
  pose proof (shell_run_semantics URL TIMEOUT eps net st Hne) as H.
  cbv zeta in H. fold rqs in H.
  destruct (answered_below 400 _).
  - destruct H as (st2 & H & Hr). rewrite H in Hrun.
    assert (E1 : st2 = st') by congruence. subst st2.
    split; [exact Hr|].
    apply (f_equal fst) in Hrun. cbn [fst] in Hrun.
    apply (f_equal (option_map Shell.summary)) in Hrun. cbn [option_map Shell.summary] in Hrun.
    rewrite Hs in Hrun. injection Hrun as <-. reflexivity.
  - rewrite H in Hrun. apply (f_equal fst) in Hrun. cbn [fst] in Hrun.
    apply (f_equal (option_map Shell.summary)) in Hrun. cbn [option_map Shell.summary] in Hrun.
    rewrite Hs in Hrun. discriminate Hrun.
Qed.

Lemma shell_counts_answers_witness :
  exists run st' s,
    Shell.run_comprehensive_validation "http://h" 10 Shell.endpoints one_of_six start
      = (Some run, st')
    /\ Shell.summary run = Some s
    /\ List.length (requests st') = 7%nat
    /\ Shell.success_count s = 1.
Proof.
  eexists _, _, _. split; [vm_compute; reflexivity|]. split; [reflexivity|].
  edestruct (shell_counts_answers "http://h" 10 Shell.endpoints one_of_six start)
    as (Hr & Hc); [vm_compute; reflexivity | reflexivity |].
  split; [reflexivity | exact Hc].
Defined.

(** X3: the shell function returns 0 exactly when the base URL answered with
    a status below 400 and every endpoint answered with a status in
    [200, 300). *)
Theorem shell_returns_zero_iff URL TIMEOUT eps net st :
  eps <> [] ->
  let k0 := List.length (requests st) in
  let rqs := map (fun ep => mkRequest (URL ++ path ep)%string TIMEOUT) eps in
  exists run st',
    Shell.run_comprehensive_validation URL TIMEOUT eps net st = (Some run, st')
    /\ (Shell.return_code run = 0
        <-> answered_below 400 (outcome (net k0 (mkRequest URL TIMEOUT))) = true
            /\ forallb is_2xx (outcomes_from net (S k0) rqs) = true).
Proof.
  intros Hne k0 rqs.
  pose proof (shell_run_semantics URL TIMEOUT eps net st Hne) as H.
  cbv zeta in H. fold k0 rqs in H.
  assert (Hn : 0 < Z.of_nat (List.length eps)) by (destruct eps; [congruence | cbn; lia]).
  pose proof (successes_bounded net (S k0) rqs) as Hb.
  pose proof (successes_all net (S k0) rqs) as Hall.
  assert (Hlen : List.length rqs = List.length eps) by (unfold rqs; apply length_map).
  rewrite Hlen in Hb, Hall.
  destruct (answered_below 400 _).
  - destruct H as (st' & H & _). eexists _, st'. split; [exact H|].
    cbn [Shell.return_code]. rewrite exit_code_of_zero.
    set (K := Z.of_nat (List.length (filter is_2xx (outcomes_from net (S k0) rqs)))) in *.
    pose proof (classify_band (K * 100 / Z.of_nat (List.length eps))) as (Hh & _).
    { apply (floor_bounds K (Z.of_nat (List.length eps))); [lia | exact Hb |].
      now apply div_floor. }
    rewrite Hh, floor_rate_full by lia. rewrite Hall. tauto.
  - eexists _, _. split; [exact H|]. cbn [Shell.return_code].
    split; [discriminate | intros [E _]; discriminate E].
Qed.

Lemma shell_returns_zero_iff_witness :
  exists run st',
    Shell.run_comprehensive_validation "http://h" 10 Shell.endpoints
      (scripted (map replies [301; 200; 201; 204; 200; 200; 299])) start = (Some run, st')
    /\ Shell.return_code run = 0.
Proof.
  destruct (shell_returns_zero_iff "http://h" 10 Shell.endpoints
              (scripted (map replies [301; 200; 201; 204; 200; 200; 299])) start
              ltac:(discriminate)) as (run & st' & H & Hiff).
  exists run, st'. split; [exact H|]. apply Hiff. split; reflexivity.
Defined.

(** X4: the status that the shell function prints, in terms of the counts it
    prints: HEALTHY when every endpoint succeeded, DEGRADED when at least half
    but not all did, UNHEALTHY when fewer than half did. *)
Theorem shell_status_by_counts URL TIMEOUT eps net st run st' s :
  Shell.run_comprehensive_validation URL TIMEOUT eps net st = (Some run, st') ->
  Shell.summary run = Some s ->
  (Shell.overall_status s = HEALTHY <-> Shell.success_count s = Shell.total_count s)
  /\ (Shell.overall_status s = DEGRADED
      <-> Shell.total_count s <= 2 * Shell.success_count s
          /\ Shell.success_count s < Shell.total_count s)
  /\ (Shell.overall_status s = UNHEALTHY
      <-> 2 * Shell.success_count s < Shell.total_count s).
Proof.
  intros Hrun Hs.
  destruct (shell_summary_shape _ _ _ _ _ _ _ _ Hrun Hs) as (k & Hn & Hk & -> & _).
  cbn [Shell.overall_status Shell.success_count Shell.total_count].
  set (n := Z.of_nat (List.length eps)) in *.
  pose proof (classify_band (k * 100 / n)) as (Hh & Hd & Hu).
  { apply (floor_bounds k n); [lia | lia | now apply div_floor]. }
  pose proof (floor_rate_full k n Hn Hk) as Hfull.
  pose proof (floor_rate_half k n Hn) as Hhalf.
  assert (Hq : k * 100 / n <= 100)
    by (apply (floor_bounds k n); [lia | lia | now apply div_floor]).
  rewrite Hh, Hd, Hu. lia.
Qed.

Lemma shell_status_by_counts_witness :
  exists run s,
    fst (Shell.run_comprehensive_validation "http://h" 10 Shell.endpoints
           (scripted (map replies [200; 200; 200; 200; 500; 404; 302])) start) = Some run
    /\ Shell.summary run = Some s
    /\ Shell.overall_status s = DEGRADED.
Proof.
  eexists _, _. split; [vm_compute; reflexivity|]. split; [reflexivity|].
  edestruct (shell_status_by_counts "http://h" 10 Shell.endpoints
               (scripted (map replies [200; 200; 200; 200; 500; 404; 302])) start)
    as (_ & Hd & _); [vm_compute; reflexivity | reflexivity |].
  apply Hd. cbn. lia.
Defined.

(** ** The hosting suite, answer by answer *)

Lemma hosting_report_semantics eps url net st :
  let k0 := List.length (requests st) in
  let o0 := outcome (net k0 (mkRequest url 5000)) in
  let oks := List.length (filter is_2xx
               (outcomes_from net (S k0) (map (probeRequest url) eps))) in
  exists b,
    if answered_below 500 o0
    then exists es st' t t',
        comprehensiveHostValidation eps url net st
        = (Js.Normal (mkReport url t b (Some (mkDetailed url t' es (summarize eps es)))
                        (classify (successRate (summarize eps es)))), st')
        /\ List.length es = List.length eps
        /\ List.length (filter ep_success es) = oks
    else exists t st1,
        comprehensiveHostValidation eps url net st
        = (Js.Normal (mkReport url t b None FAILED), st1).
Proof.
  intros k0 o0 oks.
  destruct (validateBackendService_returns url 5000 net st) as (b0 & Hb0 & _ & _ & _ & Hs & _).
  destruct (comprehensiveHostValidation_returns eps url net st) as (b & Hb & H).
  rewrite Hb0 in Hb. apply normal_inj in Hb as [-> _].
  fold k0 o0 in Hs.
  change (b_success b = answered_below 500 o0) in Hs.
  exists b. rewrite <- Hs. destruct (b_success b).
  - destruct H as (es & st' & H & Hm & _). fold k0 in Hm.
    eexists es, st', _, _. split; [exact H|]. split.
    + now apply entries_match_length in Hm.
    + now apply entries_match_successes in Hm.
  - eexists _, _. exact H.
Qed.

Lemma summarize_rate_counts eps es :
  eps <> [] ->
  successRate (summarize eps es)
  = Num ((200 * Z.of_nat (List.length (filter ep_success es)) + Z.of_nat (List.length eps))
         / (2 * Z.of_nat (List.length eps))).
Proof.
  intros Hne. cbn [summarize successRate].
  apply round_percent_num. destruct eps; [congruence | discriminate].
Qed.

(** X5: the success count of a report is the number of endpoint requests
    that were answered with a status in [200, 300). *)
Theorem successful_counts_answers eps baseUrl net st :
  exists d st',
    validateMultipleEndpoints eps baseUrl net st = (Js.Normal d, st')
    /\ successful (d_summary d)
       = Z.of_nat (List.length
           (filter is_2xx
              (outcomes_from net (List.length (requests st))
                 (map (probeRequest baseUrl) eps)))).
Proof.
  destruct (validateMultipleEndpoints_returns eps baseUrl net st) as (es & st' & H & Hm & _).
  eexists _, st'. split; [exact H|].
  cbn [d_summary summarize successful]. f_equal.
  now apply entries_match_successes.
Qed.

(** X6: for a list of fewer than 200 endpoints, the hosting suite exits with
    code 0 exactly when the base URL answered with a status below 500 and
    every endpoint answered with a status in [200, 300). *)
Theorem hosting_exit_zero_iff eps url net st :
  (0 < List.length eps < 200)%nat ->
  let k0 := List.length (requests st) in
  main eps url net st = 0
  <-> answered_below 500 (outcome (net k0 (mkRequest url 5000))) = true
      /\ forallb is_2xx (outcomes_from net (S k0) (map (probeRequest url) eps)) = true.
Proof.
  intros Hlen k0.
  assert (Hne : eps <> []) by (intros ->; cbn in Hlen; lia).
  destruct (hostingValidation_returns eps url net st) as (report & st' & Hc & Hv).
  unfold main. rewrite Hv. cbn [exitCode]. rewrite exit_code_of_zero.
  destruct (hosting_report_semantics eps url net st) as (b & H).
  cbv zeta in H. fold k0 in H.
  pose proof (successes_all net (S k0) (map (probeRequest url) eps)) as Hall.
  pose proof (successes_bounded net (S k0) (map (probeRequest url) eps)) as Hb.
  rewrite length_map in Hall, Hb.
  destruct (answered_below 500 _).
  - destruct H as (es & st2 & t & t' & H & Hl & Hk).
    rewrite H in Hc. apply normal_inj in Hc as [<- _]. cbn [overallStatus].
    rewrite summarize_rate_counts by exact Hne. rewrite Hk.
    set (K := Z.of_nat (List.length (filter is_2xx _))) in *.
    set (n := Z.of_nat (List.length eps)) in *.
    assert (Hn : 0 < n < 200) by (subst n; lia).
    pose proof (round_rate_full K n ltac:(lia)) as Hfull.
    pose proof (classify_band ((200 * K + n) / (2 * n))) as (Hh & _).
    { apply (round_half_up_bounds K n); [lia | exact Hb | apply div_round_half_up; lia]. }
    rewrite Hh, Hfull, <- Hall. split; [intros ?; split; [reflexivity | lia] | lia].
  - destruct H as (t & st1 & H).
    rewrite H in Hc. apply normal_inj in Hc as [<- _]. cbn [overallStatus].
    split; [discriminate | intros [E _]; discriminate E].
Qed.

Lemma hosting_exit_zero_iff_witness :
  main hosting_endpoints "http://h" (scripted (map replies [404; 200; 200; 201; 204; 299])) start
  = 0.
Proof.
  apply (hosting_exit_zero_iff hosting_endpoints "http://h"
           (scripted (map replies [404; 200; 200; 201; 204; 299])) start).
  - cbn. lia.
  - split; reflexivity.
Defined.

(** X7: for a list of fewer than 200 endpoints, the overall status of a
    report in terms of its counts: HEALTHY exactly when no endpoint failed,
    UNHEALTHY exactly when fewer than 49.5 percent succeeded, DEGRADED in
    between. *)
Theorem hosting_status_by_counts eps url net st report st' d :
  (0 < List.length eps < 200)%nat ->
  comprehensiveHostValidation eps url net st = (Js.Normal report, st') ->
  detailedValidation report = Some d ->
  (overallStatus report = HEALTHY <-> failed (d_summary d) = 0)
  /\ (overallStatus report = UNHEALTHY
      <-> 200 * successful (d_summary d) < 99 * total (d_summary d))
  /\ (overallStatus report = DEGRADED
      <-> 99 * total (d_summary d) <= 200 * successful (d_summary d)
          /\ 0 < failed (d_summary d)).
Proof.
  intros Hlen Hrun Hd.
  assert (Hne : eps <> []) by (intros ->; cbn in Hlen; lia).
  destruct (hosting_report_semantics eps url net st) as (b & H).
  cbv zeta in H. destruct (answered_below 500 _).
  - destruct H as (es & st2 & t & t' & H & Hl & _).
    rewrite H in Hrun. apply normal_inj in Hrun as [<- _].
    cbn [detailedValidation] in Hd. injection Hd as <-.
    cbn [overallStatus d_summary].
    destruct (summarize_counts eps es Hl) as (Ht & Hs & _ & Hb).
    rewrite summarize_rate_counts by exact Hne.
    cbn [summarize total successful failed] in *.
    set (K := Z.of_nat (List.length (filter ep_success es))) in *.
    set (n := Z.of_nat (List.length eps)) in *.
    assert (Hn : 0 < n < 200) by (subst n; lia).
    pose proof (round_rate_full K n ltac:(lia)) as Hfull.
    pose proof (round_rate_half K n ltac:(lia)) as Hhalf.
    pose proof (classify_band ((200 * K + n) / (2 * n))) as (Hh & Hdg & Hu).
    { apply (round_half_up_bounds K n); [lia | exact Hb | apply div_round_half_up; lia]. }
    assert (Hq : (200 * K + n) / (2 * n) <= 100)
      by (apply (round_half_up_bounds K n); [lia | exact Hb | apply div_round_half_up; lia]).
    rewrite Hh, Hdg, Hu. lia.
  - destruct H as (t & st1 & H).
    rewrite H in Hrun. apply normal_inj in Hrun as [<- _]. discriminate Hd.
Qed.

Lemma hosting_status_by_counts_witness :
  exists report d,
    fst (comprehensiveHostValidation hosting_endpoints "http://h" three_of_five start)
      = Js.Normal report
    /\ detailedValidation report = Some d
    /\ overallStatus report = UNHEALTHY.
Proof.
  eexists _, _. split; [vm_compute; reflexivity|]. split; [reflexivity|].
  edestruct (hosting_status_by_counts hosting_endpoints "http://h" three_of_five start)
    as (_ & Hu & _); [cbn; lia | vm_compute; reflexivity | reflexivity |].
  apply Hu. vm_compute. reflexivity.
Defined.

(** X8: on equal counts the shell function never prints a better status
    than the hosting suite reports: it rounds the rate down where the suite
    rounds to the nearest integer. *)
Theorem shell_status_never_better eps url net st report st' d
    URL TIMEOUT eps2 net2 st2 run st2' s :
  comprehensiveHostValidation eps url net st = (Js.Normal report, st') ->
  detailedValidation report = Some d ->
  Shell.run_comprehensive_validation URL TIMEOUT eps2 net2 st2 = (Some run, st2') ->
  Shell.summary run = Some s ->
  Shell.total_count s = total (d_summary d) ->
  Shell.success_count s = successful (d_summary d) ->
  rank (Shell.overall_status s) <= rank (overallStatus report).
Proof.
  intros Hrun Hd Hsh Hs Ht Hk.
  destruct (shell_summary_shape _ _ _ _ _ _ _ _ Hsh Hs) as (k & Hn & Hkb & -> & _).
  cbn [Shell.overall_status Shell.success_count Shell.total_count] in *.
  destruct (hosting_report_semantics eps url net st) as (b & H).
  cbv zeta in H. destruct (answered_below 500 _).
  - destruct H as (es & st3 & t & t' & H & Hl & _).
    rewrite H in Hrun. apply normal_inj in Hrun as [<- _].
    cbn [detailedValidation] in Hd. injection Hd as <-.
    cbn [overallStatus d_summary] in *.
    destruct (summarize_counts eps es Hl) as (Ht' & Hs' & _ & Hb).
    assert (Hne : eps <> []).
    { intros ->. cbn [summarize total List.length] in Ht. lia. }
    rewrite summarize_rate_counts by exact Hne.
    cbn [summarize total successful] in *.
    rewrite Ht, Hk.
    apply classify_monotone. split.
    + apply floor_le_round. lia.
    + apply (round_half_up_bounds (Z.of_nat (List.length (filter ep_success es)))
               (Z.of_nat (List.length eps))); [lia | lia | apply div_round_half_up; lia].
  - destruct H as (t & st1 & H).
    rewrite H in Hrun. apply normal_inj in Hrun as [<- _]. discriminate Hd.
Qed.

Lemma shell_status_never_better_witness :
  exists report run s,
    fst (comprehensiveHostValidation hosting_endpoints "http://h" three_of_five start)
      = Js.Normal report
    /\ fst (Shell.run_comprehensive_validation "http://h" 10 hosting_endpoints
              three_of_five start) = Some run
    /\ Shell.summary run = Some s
    /\ rank (Shell.overall_status s) <= rank (overallStatus report).
Proof.
  eexists _, _, _. split; [vm_compute; reflexivity|].
  split; [vm_compute; reflexivity|]. split; [reflexivity|].
  eapply (shell_status_never_better hosting_endpoints "http://h" three_of_five start _ _ _
            "http://h" 10 hosting_endpoints three_of_five start);
    [vm_compute; reflexivity | reflexivity | vm_compute; reflexivity
     | reflexivity | reflexivity | reflexivity].
Defined.

(** ** What an entry holds *)

Lemma probeEndpoint_details baseUrl ep results net st :
  let rq := probeRequest baseUrl ep in
  let x := net (List.length (requests st)) rq in
  exists e,
    probeEndpoint baseUrl ep results net st
      = (Js.Normal (results ++ [e]), issue rq (elapsed x) st)
    /\ details ep x e.
Proof.
  intros rq x. subst x rq.
  unfold probeEndpoint, probeRequest, Js.bind, Js.try_catch, Js.axios_get,
    Js.Date_now, Js.ret.
  cbn [Axios.timeout Axios.validateStatus].
  destruct (net _ _) as [[s txt h d | c m] dt]; cbn [Axios.settle outcome elapsed].
  - change (Axios.defaultValidateStatus s) with (is_2xx (Responded s txt h d)).
    destruct (is_2xx (Responded s txt h d)) eqn:Hv; eexists; (split; [reflexivity|]);
      unfold details; cbn [outcome elapsed ep_responseTime ep_status ep_success ep_data
                            ep_error Axios.status Axios.data Axios.response Axios.message
                            now issue];
      rewrite ?Hv; repeat split; try lia.
    exact Hv.
  - eexists; (split; [reflexivity|]).
    unfold details; cbn. repeat split; try lia.
    destruct c as [code|]; cbn; [|reflexivity].
    now destruct (code =? "")%string.
Qed.

Lemma for_of_probe_details baseUrl net eps : forall acc st,
  exists es st',
    Js.for_of eps (probeEndpoint baseUrl) acc net st = (Js.Normal (acc ++ es), st')
    /\ entries_rel details baseUrl net (List.length (requests st)) eps es.
Proof.
  induction eps as [|ep eps IH]; intros acc st.
  - exists [], st. cbn. now rewrite app_nil_r.
  - destruct (probeEndpoint_details baseUrl ep acc net st) as (e & Hp & He).
    destruct (IH (acc ++ [e]) (issue (probeRequest baseUrl ep)
                 (elapsed (net (List.length (requests st)) (probeRequest baseUrl ep))) st))
      as (es & st' & Hl & Hm).
    exists (e :: es), st'. cbn [Js.for_of].
    rewrite (bind_normal _ _ _ _ _ _ Hp), Hl.
    rewrite <- app_assoc. cbn [app]. split; [reflexivity|].
    cbn. split; [exact He|]. now rewrite length_issue in Hm.
Qed.

Lemma entries_rel_nth R baseUrl net eps : forall k es i ep e,
  entries_rel R baseUrl net k eps es ->
  nth_error eps i = Some ep ->
  nth_error es i = Some e ->
  R ep (net (k + i)%nat (probeRequest baseUrl ep)) e.
Proof.
  induction eps as [|ep0 eps IH]; intros k [|e0 es] i ep e H Hi He; cbn in H; try tauto.
  - destruct i; discriminate Hi.
  - destruct H as [H0 H]. destruct i as [|i]; cbn in Hi, He.
    + injection Hi as <-. injection He as <-. now rewrite Nat.add_0_r.
    + rewrite Nat.add_succ_r. exact (IH _ _ _ _ _ H Hi He).
Qed.

(** X9: every entry of a report records the time that its own request took,
    also when the request failed, and so does the result of the basic
    connectivity test. *)
Theorem response_time_is_recorded :
  (forall eps baseUrl net st d st' i ep e,
      validateMultipleEndpoints eps baseUrl net st = (Js.Normal d, st') ->
      nth_error eps i = Some ep ->
      nth_error (d_endpoints d) i = Some e ->
      ep_responseTime e
      = elapsed (net (List.length (requests st) + i)%nat (probeRequest baseUrl ep)))
  /\
  (forall url timeout net st b st',
      validateBackendService url timeout net st = (Js.Normal b, st') ->
      b_responseTime b
      = elapsed (net (List.length (requests st)) (mkRequest url timeout))).
Proof.
  split.
  - intros eps baseUrl net st d st' i ep e Hrun Hi He.
    destruct (for_of_probe_details baseUrl net eps [] st) as (es & st2 & Hl & Hm).
    unfold validateMultipleEndpoints, Js.bind, Js.Date_now in Hrun.
    rewrite Hl in Hrun. cbn [app] in Hrun. unfold Js.ret in Hrun.
    apply normal_inj in Hrun as [<- _]. cbn [d_endpoints] in He.
    exact (proj1 (entries_rel_nth _ _ _ _ _ _ _ _ _ Hm Hi He)).
  - intros url timeout net st b st' Hrun.
    destruct (validateBackendService_returns url timeout net st) as (b0 & H & _ & Ht & _).
    rewrite H in Hrun. apply normal_inj in Hrun as [<- _]. exact Ht.
Qed.

Lemma response_time_is_recorded_witness :
  exists e,
    nth_error (match fst (validateMultipleEndpoints hosting_endpoints "http://h"
                            (scripted [replies 200; timed_out]) start) with
               | Js.Normal d => d_endpoints d
               | Js.Thrown _ => []
               end) 1 = Some e
    /\ ep_responseTime e = 5000.
Proof.
  eexists. split; [vm_compute; reflexivity|].
  destruct response_time_is_recorded as [H _].
  erewrite (H hosting_endpoints "http://h" (scripted [replies 200; timed_out]) start
              _ _ 1%nat (mkEndpoint "/health" "Health Check"));
    [reflexivity | vm_compute; reflexivity | reflexivity | reflexivity].
Defined.

(** X10: in every entry of a report the response body is present exactly
    when the entry is a success and the error message exactly when it is not;
    a successful entry has a numeric status; and a status string is never
    empty, since a missing or empty error code is replaced by ['ERROR']. *)
Theorem entry_fields_follow_success eps baseUrl net st d st' e :
  validateMultipleEndpoints eps baseUrl net st = (Js.Normal d, st') ->
  In e (d_endpoints d) ->
  (ep_data e <> None <-> ep_success e = true)
  /\ (ep_error e = None <-> ep_success e = true)
  /\ (ep_success e = true -> exists n, ep_status e = StatusNum n /\ 200 <= n < 300)
  /\ (forall c, ep_status e = StatusStr c -> c <> ""%string).
Proof.
  intros Hrun Hin.
  destruct (for_of_probe_details baseUrl net eps [] st) as (es & st2 & Hl & Hm).
  unfold validateMultipleEndpoints, Js.bind, Js.Date_now in Hrun.
  rewrite Hl in Hrun. cbn [app] in Hrun. unfold Js.ret in Hrun.
  apply normal_inj in Hrun as [<- _]. cbn [d_endpoints] in Hin.
  apply In_nth_error in Hin as (i & He).
  assert (Hi : exists ep, nth_error eps i = Some ep).
  { clear - Hm He. revert es i Hm He. generalize (List.length (requests st)).
    induction eps as [|ep0 eps IH]; intros k [|e0 es] i Hm He; cbn in Hm; try tauto.
    - destruct i; discriminate He.
    - destruct i as [|i]; [now exists ep0|]. destruct Hm as [_ Hm]. cbn in He |- *. eauto. }
  destruct Hi as (ep & Hi).
  pose proof (entries_rel_nth _ _ _ _ _ _ _ _ _ Hm Hi He) as (_ & Hst & Hs & Hd & Herr).
  destruct (outcome _) as [s txt h body | c m].
  - rewrite Hst, Hs, Hd, Herr. cbn [is_2xx].
    destruct ((200 <=? s) && (s <? 300)) eqn:E.
    + split; [split; intros; [reflexivity | discriminate]|].
      split; [split; reflexivity|].
      split; [|discriminate].
      intros _. exists s. split; [reflexivity|]. now apply in_range_bool.
    + split; [split; intros H; [now elim H | discriminate H]|].
      split; [split; discriminate|].
      split; discriminate.
  - rewrite Hst, Hs, Hd, Herr. cbn [is_2xx].
    split; [split; intros H; [now elim H | discriminate H]|].
    split; [split; discriminate|].
    split; [discriminate|].
    intros c0 E. injection E as <-.
    destruct c as [code|]; [|discriminate].
    destruct (code =? "")%string eqn:Ec; [discriminate|].
    now apply String.eqb_neq in Ec.
Qed.

Lemma entry_fields_follow_success_witness :
  exists e,
    hd_error (match fst (validateMultipleEndpoints hosting_endpoints "http://h"
                           (scripted [mkExchange (NoResponse (Some "") "socket hang up") 2])
                           start) with
              | Js.Normal d => d_endpoints d
              | Js.Thrown _ => []
              end) = Some e
    /\ ep_status e = StatusStr "ERROR"
    /\ ep_error e <> None.
Proof.
  eexists. split; [vm_compute; reflexivity|]. split; [reflexivity|].
  edestruct (entry_fields_follow_success hosting_endpoints "http://h"
               (scripted [mkExchange (NoResponse (Some "") "socket hang up") 2]) start)
    as (_ & He & _); [vm_compute; reflexivity | left; reflexivity |].
  intros E. apply He in E. discriminate E.
Defined.

(** ** The result of the basic connectivity test *)

(** X11: the result of [validateBackendService] is a success exactly when it
    has no error message.  A success carries a status below 500 with headers
    and body; a failure carries neither headers nor body, and a status only
    if the server answered with 500 or more.  Either way exactly one request
    was made. *)
Theorem basic_result_invariants url timeout net st b st' :
  validateBackendService url timeout net st = (Js.Normal b, st') ->
  (b_success b = true <-> b_error b = None)
  /\ (b_success b = true ->
      exists s, b_status b = Some s /\ s < 500
                /\ b_headers b <> None /\ b_data b <> None)
  /\ (b_success b = false ->
      b_headers b = None /\ b_data b = None
      /\ forall s, b_status b = Some s -> 500 <= s)
  /\ requests st' = requests st ++ [mkRequest url timeout].
Proof.
  unfold validateBackendService, Js.bind, Js.try_catch, Js.axios_get, Js.Date_now, Js.ret.
  cbn [Axios.timeout Axios.validateStatus].
  destruct (net _ _) as [[s txt h d | c m] dt]; cbn [Axios.settle outcome elapsed].
  - destruct (s <? 500) eqn:Hs; intros H; apply normal_inj in H as [<- <-]; cbn.
    + apply Z.ltb_lt in Hs.
      split; [split; reflexivity|]. split; [|split; [discriminate | reflexivity]].
      intros _. exists s. repeat split; try assumption; discriminate.
    + apply Z.ltb_ge in Hs.
      split; [split; discriminate|]. split; [discriminate|]. split; [|reflexivity].
      intros _. repeat split. intros s' E. injection E as <-. exact Hs.
  - intros H; apply normal_inj in H as [<- <-]; cbn.
    split; [split; discriminate|]. split; [discriminate|]. split; [|reflexivity].
    intros _. repeat split. discriminate.
Qed.

Lemma basic_result_invariants_witness :
  exists b,
    fst (validateBackendService "http://h" 5000 (scripted [replies 503]) start) = Js.Normal b
    /\ b_data b = None
    /\ b_status b = Some 503.
Proof.
  eexists. split; [vm_compute; reflexivity|].
  edestruct (basic_result_invariants "http://h" 5000 (scripted [replies 503]) start)
    as (_ & _ & Hf & _); [vm_compute; reflexivity|].
  destruct Hf as (_ & Hd & _); [reflexivity|].
  split; [exact Hd | reflexivity].
Defined.

(** ** advanced-validate.js *)

Lemma advanced_precheck url net st :
  let rq := mkRequest url 5000 in
  let x := net (List.length (requests st)) rq in
  Advanced.validateBackendService url net st
  = (Js.Normal (is_2xx (outcome x)), issue rq (elapsed x) st).
Proof.
  cbv zeta.
  unfold Advanced.validateBackendService, Js.bind, Js.try_catch, Js.axios_get, Js.ret.
  cbn [Axios.timeout Axios.validateStatus].
  destruct (net _ _) as [[s txt h d | c m] dt]; cbn [Axios.settle outcome elapsed].
  - change (Axios.defaultValidateStatus s) with (is_2xx (Responded s txt h d)).
    now destruct (is_2xx _).
  - reflexivity.
Qed.

Lemma advanced_probe baseUrl endpoint allValid net st :
  let rq := mkRequest (baseUrl ++ endpoint)%string 5000 in
  let x := net (List.length (requests st)) rq in
  Advanced.probe baseUrl endpoint allValid net st
  = (Js.Normal (allValid && is_2xx (outcome x)), issue rq (elapsed x) st).
Proof.
  cbv zeta.
  unfold Advanced.probe, Js.bind, Js.try_catch, Js.axios_get, Js.ret.
  cbn [Axios.timeout Axios.validateStatus].
  destruct (net _ _) as [[s txt h d | c m] dt]; cbn [Axios.settle outcome elapsed].
  - change (Axios.defaultValidateStatus s) with (is_2xx (Responded s txt h d)).
    destruct (is_2xx _); cbn; now rewrite ?andb_true_r, ?andb_false_r.
  - cbn. now rewrite andb_false_r.
Qed.

Lemma advanced_loop baseUrl net eps : forall acc st,
  let rqs := map (fun ep => mkRequest (baseUrl ++ ep)%string 5000) eps in
  exists st',
    Js.for_of eps (Advanced.probe baseUrl) acc net st
    = (Js.Normal (acc && forallb is_2xx (outcomes_from net (List.length (requests st)) rqs)),
       st')
    /\ requests st' = requests st ++ rqs.
Proof.
  induction eps as [|ep eps IH]; intros acc st; cbv zeta.
  - exists st. cbn. now rewrite andb_true_r, app_nil_r.
  - cbn [Js.for_of map outcomes_from forallb].
    rewrite (bind_normal _ _ _ _ _ _ (advanced_probe baseUrl ep acc net st)).
    set (x := net _ _).
    destruct (IH (acc && is_2xx (outcome x))
                 (issue (mkRequest (baseUrl ++ ep)%string 5000) (elapsed x) st))
      as (st' & H & Hr).
    exists st'. rewrite H, length_issue. split.
    + now rewrite andb_assoc.
    + rewrite Hr, requests_issue, <- app_assoc. reflexivity.
Qed.

(** X12: [validateMultipleEndpoints] of advanced-validate.js requests every
    endpoint once and in order, also after one of them has failed, never
    throws, and returns true exactly when every endpoint answered with a
    status in [200, 300). *)
Theorem advanced_probes_every_endpoint eps baseUrl net st :
  let rqs := map (fun ep => mkRequest (baseUrl ++ ep)%string 5000) eps in
  exists st',
    Advanced.validateMultipleEndpoints eps baseUrl net st
    = (Js.Normal (forallb is_2xx (outcomes_from net (List.length (requests st)) rqs)), st')
    /\ requests st' = requests st ++ rqs.
Proof.
  cbv zeta. unfold Advanced.validateMultipleEndpoints.
  destruct (advanced_loop baseUrl net eps true st) as (st' & H & Hr).
  exists st'. split; [exact H | exact Hr].
Qed.

Lemma advanced_probes_every_endpoint_witness :
  exists st',
    Advanced.validateMultipleEndpoints Advanced.listed_endpoints "http://h"
      (scripted (map replies [500; 200; 200])) start = (Js.Normal false, st')
    /\ map req_url (requests st')
       = ["http://h/"; "http://h/health"; "http://h/api/status"]%string.
Proof.
  destruct (advanced_probes_every_endpoint Advanced.listed_endpoints "http://h"
              (scripted (map replies [500; 200; 200])) start) as (st' & H & Hr).
  exists st'. split; [exact H|]. rewrite Hr. reflexivity.
Defined.

(** X13: [completeValidation] never throws.  It requests the service URL
    and, only if that was answered with a status in [200, 300), every
    endpoint; the script exits with code 0 exactly when the service URL and
    every endpoint were answered with a status in [200, 300). *)
Theorem advanced_complete_validation eps net st :
  let k0 := List.length (requests st) in
  let rq0 := mkRequest Advanced.localhost 5000 in
  let rqs := map (fun ep => mkRequest (Advanced.localhost ++ ep)%string 5000) eps in
  let ok := is_2xx (outcome (net k0 rq0))
            && forallb is_2xx (outcomes_from net (S k0) rqs) in
  exists st',
    Advanced.completeValidation eps net st = (Js.Normal ok, st')
    /\ requests st'
       = requests st ++ rq0 :: (if is_2xx (outcome (net k0 rq0)) then rqs else [])
    /\ (Advanced.main eps net st = 0 <-> ok = true).
Proof.
  cbv zeta.
  pose proof (advanced_precheck Advanced.localhost net st) as Hp. cbv zeta in Hp.
  assert (Hc : exists st',
             Advanced.completeValidation eps net st
             = (Js.Normal (is_2xx (outcome (net (List.length (requests st))
                                              (mkRequest Advanced.localhost 5000)))
                           && forallb is_2xx
                                (outcomes_from net (S (List.length (requests st)))
                                   (map (fun ep => mkRequest (Advanced.localhost ++ ep)%string
                                                     5000) eps))), st')
             /\ requests st'
                = requests st ++ mkRequest Advanced.localhost 5000
                    :: (if is_2xx (outcome (net (List.length (requests st))
                                              (mkRequest Advanced.localhost 5000)))
                        then map (fun ep => mkRequest (Advanced.localhost ++ ep)%string 5000)
                               eps
                        else [])).
  { unfold Advanced.completeValidation. rewrite (bind_normal _ _ _ _ _ _ Hp).
    destruct (is_2xx _).
    - destruct (advanced_loop Advanced.localhost net eps true
                  (issue (mkRequest Advanced.localhost 5000)
                     (elapsed (net (List.length (requests st))
                                 (mkRequest Advanced.localhost 5000))) st))
        as (st' & H & Hr).
      cbv zeta in H, Hr. rewrite length_issue in H. cbn [andb] in H.
      exists st'. unfold Advanced.validateMultipleEndpoints.
      rewrite (bind_normal _ _ _ _ _ _ H). split.
      + cbn [andb]. now destruct (forallb _ _).
      + rewrite Hr, requests_issue, <- app_assoc. reflexivity.
    - eexists. split; reflexivity. }
  destruct Hc as (st' & Hc & Hr).
  exists st'. split; [exact Hc|]. split; [exact Hr|].
  unfold Advanced.main. rewrite Hc.
  destruct (_ && _); split; congruence.
Qed.

Lemma advanced_complete_validation_witness :
  Advanced.main Advanced.listed_endpoints (scripted (map replies [200; 200; 404; 200])) start
  <> 0.
Proof.
  destruct (advanced_complete_validation Advanced.listed_endpoints
              (scripted (map replies [200; 200; 404; 200])) start) as (st' & _ & _ & Hiff).
  intros E. apply Hiff in E. discriminate E.
Defined.

(** ** validate-service.sh *)

Lemma basic_script_status net st :
  fst (Basic.validate_service net st)
  = if answered_below 400 (outcome (net (List.length (requests st))
                                      (mkRequest Basic.target 0)))
    then 0 else 1.
Proof.
  unfold Basic.validate_service, Basic.curl.
  change Shell.curl_fail_ok with (answered_below 400).
  now destruct (answered_below 400 _).
Qed.

(** X14: the curl script exits with 0 exactly when its first request was
    answered with a status below 400, and with 1 otherwise.  It then makes
    three more requests, whose answers do not change the exit status: two
    networks that answer the first request alike give the same status.
    After a failed first request it makes no other. *)
Theorem basic_script_exit net st :
  let r := mkRequest Basic.target 0 in
  let ok := answered_below 400 (outcome (net (List.length (requests st)) r)) in
  (fst (Basic.validate_service net st) = 0 <-> ok = true)
  /\ (fst (Basic.validate_service net st) = 1 <-> ok = false)
  /\ requests (snd (Basic.validate_service net st))
     = requests st
       ++ (if ok then [r; r; mkRequest (Basic.target ++ "/health")%string 0; r] else [r])
  /\ (forall net',
        outcome (net' (List.length (requests st)) r)
        = outcome (net (List.length (requests st)) r) ->
        fst (Basic.validate_service net' st) = fst (Basic.validate_service net st)).
Proof.
  cbv zeta. split; [|split; [|split]].
  - rewrite basic_script_status. destruct (answered_below 400 _); split; congruence.
  - rewrite basic_script_status. destruct (answered_below 400 _); split; congruence.
  - unfold Basic.validate_service, Basic.curl.
    change Shell.curl_fail_ok with (answered_below 400).
    destruct (answered_below 400 _); cbn [snd]; [|reflexivity].
    rewrite !requests_issue, <- !app_assoc. reflexivity.
  - intros net' E. rewrite !basic_script_status, E. reflexivity.
Qed.

Lemma basic_script_exit_witness :
  fst (Basic.validate_service (scripted [replies 302; refused; refused; refused]) start) = 0.
Proof.
  destruct (basic_script_exit (scripted [replies 302; refused; refused; refused]) start)
    as (H & _).
  apply H. reflexivity.
Defined.

(** ** The targets of the diagnostics *)

Lemma append_empty_r (s : string) : (s ++ "")%string = s.
Proof. induction s as [|a s IH]; cbn; congruence. Qed.

Lemma lacks_app c (p r : string) : lacks c (p ++ r) = lacks c p && lacks c r.
Proof.
  induction p as [|a p IH]; cbn; [reflexivity|].
  rewrite IH. now rewrite andb_assoc.
Qed.

Lemma before_skip c (p r : string) :
  lacks c p = true -> Diagnostics.before c (p ++ r) = (p ++ Diagnostics.before c r)%string.
Proof.
  induction p as [|a p IH]; cbn; [reflexivity|].
  intros H. apply andb_true_iff in H as [Ha Hp].
  destruct (a =? c)%char; [discriminate Ha|]. now rewrite IH.
Qed.

Lemma before_lacks c (s : string) : lacks c s = true -> Diagnostics.before c s = s.
Proof.
  intros H. rewrite <- (append_empty_r s) at 1.
  rewrite before_skip by exact H. cbn. apply append_empty_r.
Qed.

Lemma before_here c (r : string) : Diagnostics.before c (String c r) = ""%string.
Proof. cbn. now rewrite Ascii.eqb_refl. Qed.

Lemma after_double_slash_skip (p r : string) :
  lacks "/" p = true ->
  Diagnostics.after_double_slash (p ++ r) = Diagnostics.after_double_slash r.
Proof.
  induction p as [|a p IH]; cbn; [reflexivity|].
  intros H. apply andb_true_iff in H as [Ha Hp].
  destruct (a =? "/")%char; [discriminate Ha|]. now apply IH.
Qed.

Lemma after_double_slash_lacks (s : string) :
  lacks "/" s = true -> Diagnostics.after_double_slash s = None.
Proof.
  intros H. rewrite <- (append_empty_r s). now rewrite after_double_slash_skip.
Qed.

Lemma after_scheme_skip (p r : string) :
  lacks ":" p = true -> Diagnostics.after_scheme (p ++ r) = Diagnostics.after_scheme r.
Proof.
  induction p as [|a p IH]; cbn; [reflexivity|].
  intros H. apply andb_true_iff in H as [Ha Hp].
  destruct (a =? ":")%char; [discriminate Ha|]. now apply IH.
Qed.

Lemma after_last_colon_lacks (s : string) :
  lacks ":" s = true -> Diagnostics.after_last_colon s = None.
Proof.
  induction s as [|a s IH]; cbn; [reflexivity|].
  intros H. apply andb_true_iff in H as [Ha Hs].
  rewrite IH by exact Hs. now destruct (a =? ":")%char.
Qed.

Lemma after_last_colon_app (p r : string) :
  lacks ":" r = true -> Diagnostics.after_last_colon (p ++ String ":" r) = Some r.
Proof.
  intros H. induction p as [|a p IH]; cbn.
  - now rewrite after_last_colon_lacks.
  - now rewrite IH.
Qed.

(** A path: nothing, or something that starts with a slash. *)
Lemma before_path (rest : string) :
  rest = ""%string \/ (exists r, rest = String "/" r) ->
  Diagnostics.before "/" rest = ""%string.
Proof. intros [-> | (r & ->)]; reflexivity. Qed.

Lemma host_and_port_text (host tail rest : string) :
  lacks "/" host = true -> lacks ":" host = true -> lacks "/" tail = true ->
  rest = ""%string \/ (exists r, rest = String "/" r) ->
  Diagnostics.before "/" (host ++ String ":" (tail ++ rest)) = (host ++ String ":" tail)%string
  /\ Diagnostics.before ":" (host ++ String ":" tail) = host.
Proof.
  intros Hh1 Hh2 Ht Hrest. split.
  - rewrite before_skip by exact Hh1. cbn [Diagnostics.before].
    change ((":" =? "/")%char) with false. cbv iota.
    rewrite before_skip by exact Ht. rewrite before_path by exact Hrest.
    now rewrite append_empty_r.
  - rewrite before_skip by exact Hh2. rewrite before_here. apply append_empty_r.
Qed.

Lemma word_chars_app (a b : string) :
  Diagnostics.word_chars (a ++ b)
  = Diagnostics.word_chars a && Diagnostics.word_chars b.
Proof.
  induction a as [|c a IH]; cbn [append Diagnostics.word_chars]; [reflexivity|].
  now rewrite IH, andb_assoc.
Qed.

Lemma plain_word_chars (w : string) :
  Diagnostics.plain w = true -> Diagnostics.word_chars w = true.
Proof. unfold Diagnostics.plain. intros H. now apply andb_true_iff in H as [H _]. Qed.

Lemma plain_intro (w : string) :
  Diagnostics.word_chars w = true -> String.prefix "-" w = false ->
  Diagnostics.plain w = true.
Proof. unfold Diagnostics.plain. now intros -> ->. Qed.

Lemma prefix_dash_app (host tail : string) :
  String.prefix "-" host = false ->
  String.prefix "-" (host ++ String ":" tail) = false.
Proof.
  destruct host as [|a host]; [reflexivity|].
  cbn [append String.prefix]. intros H.
  destruct (ascii_dec "-" a); [|reflexivity].
  destruct host; discriminate H.
Qed.

Lemma host_line (scheme tail : string) :
  lacks "/" scheme = true ->
  Diagnostics.delete_match Diagnostics.after_double_slash (scheme ++ "://" ++ tail) = tail.
Proof.
  intros H. unfold Diagnostics.delete_match.
  rewrite after_double_slash_skip by exact H. reflexivity.
Qed.

Lemma port_line (scheme tail : string) :
  lacks ":" scheme = true ->
  Diagnostics.delete_match Diagnostics.after_scheme (scheme ++ "://" ++ tail) = tail.
Proof.
  intros H. unfold Diagnostics.delete_match.
  rewrite after_scheme_skip by exact H. reflexivity.
Qed.

(** X15: for a URL of the form scheme://host:port followed by nothing or by a
    path that [echo] prints unchanged (a plain word, with a host that does not
    start with a dash), [run_diagnostics] pings the host and probes the port
    of the URL; but when the port is empty or reads the same as the host, it
    probes the default port instead: 443 if the URL starts with https, 80
    otherwise. *)
Theorem diagnostics_host_and_port (scheme host port rest : string) :
  let URL := (scheme ++ "://" ++ host ++ ":" ++ port ++ rest)%string in
  Diagnostics.plain URL = true ->
  String.prefix "-" host = false ->
  lacks "/" scheme = true -> lacks ":" scheme = true ->
  lacks "/" host = true -> lacks ":" host = true ->
  lacks "/" port = true -> lacks ":" port = true ->
  rest = ""%string \/ (exists r, rest = String "/" r) ->
  Diagnostics.host_part URL = Some host
  /\ Diagnostics.port_part URL
     = Some (if ((port =? "") || (port =? host))%string
             then (if String.prefix "https" URL then "443" else "80")%string
             else port).
Proof.
  intros URL Hplain Hdash Hs1 Hs2 Hh1 Hh2 Hp1 Hp2 Hrest. subst URL.
  destruct (host_and_port_text host port rest Hh1 Hh2 Hp1 Hrest) as (Hcut & Hhost).
  assert (Hword : Diagnostics.plain (host ++ String ":" port) = true).
  { apply plain_intro; [|now apply prefix_dash_app].
    apply plain_word_chars in Hplain.
    rewrite !word_chars_app in Hplain.
    repeat (apply andb_true_iff in Hplain as [? Hplain]).
    change (String ":" port) with (":" ++ port)%string.
    rewrite !word_chars_app. now repeat (apply andb_true_iff; split). }
  assert (Hh : Diagnostics.host_part (scheme ++ "://" ++ host ++ ":" ++ port ++ rest)
               = Some host).
  { unfold Diagnostics.host_part, Diagnostics.echo. rewrite Hplain.
    rewrite host_line by exact Hs1.
    change (host ++ ":" ++ port ++ rest)%string with (host ++ String ":" (port ++ rest))%string.
    rewrite Hcut, Hword, Hhost. reflexivity. }
  split; [exact Hh|].
  unfold Diagnostics.port_part. rewrite Hh.
  unfold Diagnostics.port_text, Diagnostics.echo. rewrite Hplain.
  rewrite port_line by exact Hs2.
  change (host ++ ":" ++ port ++ rest)%string with (host ++ String ":" (port ++ rest))%string.
  rewrite Hcut. unfold Diagnostics.delete_match.
  rewrite after_last_colon_app by exact Hp2. reflexivity.
Qed.

Lemma diagnostics_host_and_port_witness :
  Diagnostics.host_part "https://myhost.com:8080/api/status" = Some "myhost.com"%string
  /\ Diagnostics.port_part "https://myhost.com:8080/api/status" = Some "8080"%string.
Proof.
  apply (diagnostics_host_and_port "https" "myhost.com" "8080" "/api/status");
    try reflexivity.
  right. now exists "api/status"%string.
Defined.

(** X16: for a URL of the form scheme://host followed by nothing or by a
    path that [echo] prints unchanged (a plain word, with a host that does not
    start with a dash), [run_diagnostics] pings the host and probes port 443
    if the URL starts with https and port 80 otherwise. *)
Theorem diagnostics_default_port (scheme host rest : string) :
  let URL := (scheme ++ "://" ++ host ++ rest)%string in
  Diagnostics.plain URL = true ->
  String.prefix "-" host = false ->
  lacks "/" scheme = true -> lacks ":" scheme = true ->
  lacks "/" host = true -> lacks ":" host = true ->
  rest = ""%string \/ (exists r, rest = String "/" r) ->
  Diagnostics.host_part URL = Some host
  /\ Diagnostics.port_part URL
     = Some (if String.prefix "https" URL then "443" else "80")%string.
Proof.
  intros URL Hplain Hdash Hs1 Hs2 Hh1 Hh2 Hrest. subst URL.
  assert (Hcut : Diagnostics.before "/" (host ++ rest) = host).
  { rewrite before_skip by exact Hh1. rewrite before_path by exact Hrest.
    apply append_empty_r. }
  assert (Hword : Diagnostics.plain host = true).
  { apply plain_intro; [|exact Hdash].
    apply plain_word_chars in Hplain.
    rewrite !word_chars_app in Hplain.
    now repeat (apply andb_true_iff in Hplain as [? Hplain]). }
  assert (Hh : Diagnostics.host_part (scheme ++ "://" ++ host ++ rest) = Some host).
  { unfold Diagnostics.host_part, Diagnostics.echo. rewrite Hplain.
    rewrite host_line by exact Hs1.
    rewrite Hcut, Hword. now rewrite before_lacks. }
  split; [exact Hh|].
  unfold Diagnostics.port_part. rewrite Hh.
  unfold Diagnostics.port_text, Diagnostics.echo. rewrite Hplain.
  rewrite port_line by exact Hs2.
  rewrite Hcut. unfold Diagnostics.delete_match.
  rewrite after_last_colon_lacks by exact Hh2.
  now rewrite String.eqb_refl, orb_true_r.
Qed.

Lemma diagnostics_default_port_witness :
  Diagnostics.host_part "https://myhost.com" = Some "myhost.com"%string
  /\ Diagnostics.port_part "https://myhost.com" = Some "443"%string
  /\ Diagnostics.port_part "http://localhost/health" = Some "80"%string.
Proof.
  split; [|split].
  - apply (diagnostics_default_port "https" "myhost.com" ""); try reflexivity. now left.
  - apply (diagnostics_default_port "https" "myhost.com" ""); try reflexivity. now left.
  - apply (diagnostics_default_port "http" "localhost" "/health"); try reflexivity.
    right. now exists "health"%string.
Defined.

Lemma after_scheme_bare (host tail : string) :
  lacks ":" host = true -> lacks "/" tail = true ->
  Diagnostics.after_scheme (host ++ String ":" tail) = None.
Proof.
  intros Hh Ht. rewrite after_scheme_skip by exact Hh.
  cbn [Diagnostics.after_scheme]. change ((":" =? ":")%char) with true. cbv iota.
  destruct tail as [|b [|c r]]; try reflexivity.
  cbn [lacks] in Ht. apply andb_true_iff in Ht as [Hb _].
  destruct (b =? "/")%char; [discriminate Hb | reflexivity].
Qed.

(** X17: for a target without scheme and path that [echo] prints unchanged
    (a plain word, as in [--diagnostics myhost.com]), [run_diagnostics] pings
    the target and probes the default port; for host:port it pings the host
    and probes the port, unless the port is empty or reads the same as the
    host. *)
Theorem diagnostics_bare_target (host port : string) :
  lacks "/" host = true -> lacks ":" host = true ->
  lacks "/" port = true -> lacks ":" port = true ->
  (Diagnostics.plain host = true ->
   Diagnostics.host_part host = Some host
   /\ Diagnostics.port_part host
      = Some (if String.prefix "https" host then "443" else "80")%string)
  /\
  (let URL := (host ++ ":" ++ port)%string in
   Diagnostics.plain URL = true ->
   Diagnostics.host_part URL = Some host
   /\ Diagnostics.port_part URL
      = Some (if ((port =? "") || (port =? host))%string
              then (if String.prefix "https" URL then "443" else "80")%string
              else port)).
Proof.
  intros Hh1 Hh2 Hp1 Hp2. split.
  - intros Hplain.
    assert (Hh : Diagnostics.host_part host = Some host).
    { unfold Diagnostics.host_part, Diagnostics.echo, Diagnostics.delete_match.
      rewrite Hplain. rewrite after_double_slash_lacks by exact Hh1.
      rewrite (before_lacks "/" host Hh1), Hplain. now rewrite before_lacks. }
    split; [exact Hh|].
    assert (Hscheme : Diagnostics.after_scheme host = None).
    { rewrite <- (append_empty_r host).
      rewrite after_scheme_skip by exact Hh2. reflexivity. }
    assert (Hp : Diagnostics.port_text host = Some host).
    { unfold Diagnostics.port_text, Diagnostics.echo, Diagnostics.delete_match.
      rewrite Hplain, Hscheme, (before_lacks "/" host Hh1).
      now rewrite after_last_colon_lacks. }
    unfold Diagnostics.port_part. rewrite Hh, Hp.
    now rewrite String.eqb_refl, orb_true_r.
  - intros URL Hplain. subst URL. cbn [append] in *.
    assert (Hall : lacks "/" (host ++ String ":" port) = true).
    { rewrite lacks_app, Hh1. cbn [lacks andb].
      change ((":" =? "/")%char) with false. cbn [negb andb]. exact Hp1. }
    assert (Hh : Diagnostics.host_part (host ++ String ":" port) = Some host).
    { unfold Diagnostics.host_part, Diagnostics.echo, Diagnostics.delete_match.
      rewrite Hplain. rewrite after_double_slash_lacks by exact Hall.
      rewrite (before_lacks "/" _ Hall), Hplain.
      rewrite before_skip by exact Hh2. rewrite before_here. now rewrite append_empty_r. }
    split; [exact Hh|].
    assert (Hp : Diagnostics.port_text (host ++ String ":" port) = Some port).
    { unfold Diagnostics.port_text, Diagnostics.echo, Diagnostics.delete_match.
      rewrite Hplain. rewrite after_scheme_bare by assumption.
      rewrite (before_lacks "/" _ Hall). now rewrite after_last_colon_app. }
    unfold Diagnostics.port_part. rewrite Hh, Hp. reflexivity.
Qed.

Lemma diagnostics_bare_target_witness :
  Diagnostics.host_part "myhost.com" = Some "myhost.com"%string
  /\ Diagnostics.port_part "myhost.com" = Some "80"%string
  /\ Diagnostics.host_part "myhost.com:8080" = Some "myhost.com"%string
  /\ Diagnostics.port_part "myhost.com:8080" = Some "8080"%string.
Proof.
  destruct (diagnostics_bare_target "myhost.com" "8080") as (H1 & H2); try reflexivity.
  destruct H1 as (Hh & Hp); [reflexivity|].
  destruct H2 as (Hh' & Hp'); [reflexivity|].
  repeat split; assumption.
Defined.

(** What the unquoted [echo] would not print unchanged has no modelled
    target: an option of [echo], a word with blanks, a pattern. *)
Example diagnostics_not_modelled :
  Diagnostics.host_part "-n" = None
  /\ Diagnostics.host_part "http://a  b:80" = None
  /\ Diagnostics.host_part "http://-n" = None
  /\ Diagnostics.host_part "http://*:80" = None.
Proof. repeat split; reflexivity. Qed.

Lemma round_le_floor_succ (k n : Z) : 0 < n -> (200 * k + n) / (2 * n) <= k * 100 / n + 1.
Proof.
  intros Hn.
  pose proof (div_floor k n Hn) as [H1 H2].
  pose proof (div_round_half_up k n Hn) as [H3 H4]. nia.
Qed.

(** X18: on equal counts the rate that the shell function prints is the rate
    of the hosting suite or one less. *)
Theorem shell_rate_within_one eps url net st report st' d
    URL TIMEOUT eps2 net2 st2 run st2' s :
  comprehensiveHostValidation eps url net st = (Js.Normal report, st') ->
  detailedValidation report = Some d ->
  Shell.run_comprehensive_validation URL TIMEOUT eps2 net2 st2 = (Some run, st2') ->
  Shell.summary run = Some s ->
  Shell.total_count s = total (d_summary d) ->
  Shell.success_count s = successful (d_summary d) ->
  exists r,
    successRate (d_summary d) = Num r
    /\ Shell.success_rate s <= r <= Shell.success_rate s + 1.
Proof.
  intros Hrun Hd Hsh Hs Ht Hk.
  destruct (shell_summary_shape _ _ _ _ _ _ _ _ Hsh Hs) as (k & Hn & Hkb & -> & _).
  cbn [Shell.success_rate Shell.success_count Shell.total_count] in *.
  destruct (hosting_report_semantics eps url net st) as (b & H).
  cbv zeta in H. destruct (answered_below 500 _).
  - destruct H as (es & st3 & t & t' & H & Hl & _).
    rewrite H in Hrun. apply normal_inj in Hrun as [<- _].
    cbn [detailedValidation] in Hd. injection Hd as <-.
    cbn [d_summary] in *.
    assert (Hne : eps <> []).
    { intros ->. cbn [summarize total List.length] in Ht. lia. }
    rewrite summarize_rate_counts by exact Hne.
    cbn [summarize total successful] in *.
    eexists. split; [reflexivity|]. rewrite Ht, Hk. split.
    + apply floor_le_round. lia.
    + apply round_le_floor_succ. lia.
  - destruct H as (t & st1 & H).
    rewrite H in Hrun. apply normal_inj in Hrun as [<- _]. discriminate Hd.
Qed.

Lemma shell_rate_within_one_witness :
  exists report d run s r,
    fst (comprehensiveHostValidation Shell.endpoints "http://h" one_of_six start)
      = Js.Normal report
    /\ detailedValidation report = Some d
    /\ fst (Shell.run_comprehensive_validation "http://h" 10 Shell.endpoints
              one_of_six start) = Some run
    /\ Shell.summary run = Some s
    /\ successRate (d_summary d) = Num r
    /\ Shell.success_rate s <= r <= Shell.success_rate s + 1.
Proof.
  eexists _, _, _, _.
  pose proof (fun report st' d =>
                shell_rate_within_one Shell.endpoints "http://h" one_of_six start
                  report st' d "http://h" 10 Shell.endpoints one_of_six start) as H.
  edestruct H as (r & Hr & Hb);
    [vm_compute; reflexivity | reflexivity | vm_compute; reflexivity
     | reflexivity | reflexivity | reflexivity |].
  exists r. split; [vm_compute; reflexivity|].
  split; [reflexivity|]. split; [vm_compute; reflexivity|]. split; [reflexivity|].
  split; [exact Hr | exact Hb].
Defined.
